(** * Embedding-provider resolution and embedding persistence (utils.py)

    A shallow embedding of [save_embedding], [load_embedding],
    [get_azure_openai_embedding] and [resolve_embed_model], together with
    the properties that the specification states about them.

    Python values are an inductive type, objects live in a heap that is
    threaded through every call (attribute assignment mutates the object
    that was passed in), exceptions are an explicit outcome, and the
    process environment (environment variables, installed packages,
    global settings) is a read-only record. *)

From Stdlib Require Import ZArith String Ascii List Floats.SpecFloat.
From stdpp Require Import gmap strings list.

(** ** Python [str] methods used by the module *)

Module PyStr.

(** [p in s] for a one-character pattern. *)
Fixpoint contains (c : ascii) (s : string) : bool :=
  match s with
  | EmptyString => false
  | String a s' => if Ascii.eqb a c then true else contains c s'
  end.

(** [s.startswith(p)] *)
Fixpoint startswith (p s : string) : bool :=
  match p with
  | EmptyString => true
  | String a p' =>
      match s with
      | EmptyString => false
      | String b s' => Ascii.eqb a b && startswith p' s'
      end
  end.

(** [s.split(sep)] for a one-character separator: every occurrence
    separates two fields, so the result is never empty. *)
Fixpoint split (sep : ascii) (s : string) : list string :=
  match s with
  | EmptyString => [EmptyString]
  | String a s' =>
      if Ascii.eqb a sep then EmptyString :: split sep s'
      else match split sep s' with
           | f :: fs => String a f :: fs
           | [] => [String a EmptyString]
           end
  end.

(** [s.split(sep, 1)]: at most one split, at the first occurrence. *)
Fixpoint split1 (sep : ascii) (s : string) : list string :=
  match s with
  | EmptyString => [EmptyString]
  | String a s' =>
      if Ascii.eqb a sep then [EmptyString; s']
      else match split1 sep s' with
           | f :: fs => String a f :: fs
           | [] => [String a EmptyString]
           end
  end.

(** [sep.join(l)] *)
Fixpoint join (sep : string) (l : list string) : string :=
  match l with
  | [] => EmptyString
  | [x] => x
  | x :: rest => x +:+ sep +:+ join sep rest
  end.

(** Characters for which [str.isspace] holds, among code points below 256. *)
Definition is_space (a : ascii) : bool :=
  let n := nat_of_ascii a in
  (Nat.leb 9 n && Nat.leb n 13) || (Nat.leb 28 n && Nat.leb n 32)
  || Nat.eqb n 133 || Nat.eqb n 160.

Fixpoint lstrip (s : string) : string :=
  match s with
  | EmptyString => EmptyString
  | String a s' => if is_space a then lstrip s' else s
  end.

Fixpoint rstrip (s : string) : string :=
  match s with
  | EmptyString => EmptyString
  | String a s' =>
      match rstrip s' with
      | EmptyString => if is_space a then EmptyString else String a EmptyString
      | r => String a r
      end
  end.

(** [s.strip()] *)
Definition strip (s : string) : string := rstrip (lstrip s).

End PyStr.

(** ** Values, objects and exceptions *)

Definition loc := nat.

(** The classes whose instances the resolver meets.  [CustomEmbedding]
    stands for any other subclass of [BaseEmbedding], [LCEmbeddingsImpl]
    for an implementation of the langchain [Embeddings] interface that is
    an ordinary class, [LCEmbeddingsModel] for one that is a pydantic
    model (it has no field [callback_manager] and refuses the assignment),
    [DualEmbedding] for a class that inherits from both [BaseEmbedding]
    and the langchain interface, [PlainObject] for an instance of an
    unrelated user class and [SlottedObject] for an instance of a class
    with [__slots__], which takes no new attribute. *)
Inductive pyclass :=
| cls_MockEmbedding
| cls_OpenAIEmbedding
| cls_ClipEmbedding
| cls_HuggingFaceEmbedding
| cls_LangchainEmbedding
| cls_CustomEmbedding
| cls_DualEmbedding
| cls_AzureOpenAIMultiModal
| cls_LCEmbeddingsImpl
| cls_LCEmbeddingsModel
| cls_CallbackManager
| cls_PlainObject
| cls_SlottedObject.

Inductive value :=
| VNone
| VStr (s : string)
| VInt (n : Z)
| VFloats (l : list spec_float)
| VRef (l : loc).

Record object := Object {
  obj_class : pyclass;
  obj_attrs : gmap string value
}.

Inductive exc_class :=
| ImportError
| ValueError
| AttributeError
| IndexError
| UnboundLocalError
| FileNotFoundError
| RuntimeError.

Record exception := Exc {
  exc_kind : exc_class;
  exc_msg : string
}.

Inductive outcome (A : Type) :=
| Return (a : A)
| Raise (e : exception).
Arguments Return {A} a.
Arguments Raise {A} e.

(** [isinstance(v, BaseEmbedding)] and [isinstance(v, LCEmbeddings)] on classes. *)
Definition is_BaseEmbedding (c : pyclass) : bool :=
  match c with
  | cls_MockEmbedding | cls_OpenAIEmbedding | cls_ClipEmbedding
  | cls_HuggingFaceEmbedding | cls_LangchainEmbedding | cls_CustomEmbedding
  | cls_DualEmbedding => true
  | _ => false
  end.

Definition is_LCEmbeddings (c : pyclass) : bool :=
  match c with
  | cls_LCEmbeddingsImpl | cls_LCEmbeddingsModel | cls_DualEmbedding => true
  | _ => false
  end.

(** What the assignment of an attribute to an instance raises, if the
    instance refuses it: an [AttributeError] with [__slots__], a
    [ValueError] from a pydantic model without such a field.  The
    providers declare the field [callback_manager]. *)
Definition attribute_refusal (c : pyclass) : option exc_class :=
  match c with
  | cls_SlottedObject => Some AttributeError
  | cls_LCEmbeddingsModel => Some ValueError
  | _ => None
  end.

(** Truth value of a Python value (none of the classes above defines
    [__bool__] or [__len__], so every object is true). *)
Definition truthy (v : value) : bool :=
  match v with
  | VNone => false
  | VStr s => negb (String.eqb s EmptyString)
  | VInt n => negb (Z.eqb n 0)
  | VFloats l => match l with [] => false | _ => true end
  | VRef _ => true
  end.

(** [a or b] *)
Definition py_or (a b : value) : value := if truthy a then a else b.

(** [v == "..."] against a string literal. *)
Definition eq_str (v : value) (lit : string) : bool :=
  match v with
  | VStr s => String.eqb s lit
  | _ => false
  end.

Definition type_name (v : value) : string :=
  match v with
  | VNone => "NoneType"
  | VStr _ => "str"
  | VInt _ => "int"
  | VFloats _ => "list"
  | VRef _ => "object"
  end.

(** ** The process environment and the mutable state *)

(** The optional packages that the module imports inside functions. *)
Inductive pymodule :=
| mod_bridge_langchain      (* llama_index.core.bridge.langchain *)
| mod_embeddings_openai     (* llama_index.embeddings.openai *)
| mod_embeddings_openai_utils (* llama_index.embeddings.openai.utils *)
| mod_embeddings_clip       (* llama_index.embeddings.clip *)
| mod_embeddings_huggingface (* llama_index.embeddings.huggingface *)
| mod_embeddings_langchain  (* llama_index.embeddings.langchain *)
| mod_legacy_azure_openai.  (* llama_index.legacy.multi_modal_llms.azure_openai *)

Definition module_name (m : pymodule) : string :=
  match m with
  | mod_bridge_langchain => "llama_index.core.bridge.langchain"
  | mod_embeddings_openai => "llama_index.embeddings.openai"
  | mod_embeddings_openai_utils => "llama_index.embeddings.openai.utils"
  | mod_embeddings_clip => "llama_index.embeddings.clip"
  | mod_embeddings_huggingface => "llama_index.embeddings.huggingface"
  | mod_embeddings_langchain => "llama_index.embeddings.langchain"
  | mod_legacy_azure_openai => "llama_index.legacy.multi_modal_llms.azure_openai"
  end.

(** What the module reads from its surroundings and never writes. *)
Record world := World {
  (** [os.environ] *)
  environ : gmap string string;
  (** which optional packages can be imported *)
  importable : pymodule -> bool;
  (** [Settings.callback_manager], the process-wide default handle *)
  Settings_callback_manager : value;
  (** the result of [get_cache_dir()] *)
  cache_dir : string;
  (** the [api_key] attribute that [OpenAIEmbedding()] ends up with *)
  openai_api_key : value;
  (** [validate_openai_api_key]: the text of the [ValueError] it raises,
      if it rejects the key *)
  openai_key_rejection : value -> option string;
  (** [AzureOpenAIMultiModal(...).embed(text)['data'][0]['embedding']]:
      text, api key, endpoint, model name, api version *)
  azure_embed : string -> value -> string -> string -> string ->
                outcome (list spec_float)
}.

(** Interactions with the surroundings, in the order they happen. *)
Inductive event :=
| EImport (m : pymodule)
| EGetenv (name : string)
| EValidateKey
| EMakedirs (path : string)
| EAzureEmbed (text : string)
| EPrint (text : string).

Record state := State {
  heap : list object;
  stdout : list string;
  dirs : gset string;
  trace : list event
}.

(** ** Computations: state passing with exceptions *)

Definition M (A : Type) : Type := state -> outcome A * state.

#[global] Instance M_ret : MRet M := fun A (a : A) st => (Return a, st).

#[global] Instance M_bind : MBind M := fun A B (f : A -> M B) (m : M A) st =>
  match m st with
  | (Return a, st') => f a st'
  | (Raise e, st') => (Raise e, st')
  end.

Definition raise {A} (k : exc_class) (msg : string) : M A :=
  fun st => (Raise (Exc k msg), st).

(** [try: body except ...: handler]: the handler sees the state the body
    left behind; an exception no clause matches propagates. *)
Definition try_except {A} (body : M A) (handler : exception -> option (M A)) : M A :=
  fun st =>
    match body st with
    | (Return a, st') => (Return a, st')
    | (Raise e, st') =>
        match handler e with
        | Some h => h st'
        | None => (Raise e, st')
        end
    end.

Definition log (e : event) : M unit :=
  fun st => (Return tt,
             {| heap := heap st; stdout := stdout st; dirs := dirs st;
                trace := trace st ++ [e] |}).

(** [from m import ...] *)
Definition import_module (w : world) (m : pymodule) : M unit :=
  log (EImport m) ;;
  if importable w m then mret tt
  else raise ImportError ("No module named '" +:+ module_name m +:+ "'").

(** [os.getenv(name)]: the value, or [None] when the variable is not set. *)
Definition getenv_value (w : world) (name : string) : value :=
  match environ w !! name with
  | Some s => VStr s
  | None => VNone
  end.

Definition os_getenv (w : world) (name : string) : M value :=
  log (EGetenv name) ;;
  mret (getenv_value w name).

(** [print(text)] *)
Definition print (text : string) : M unit :=
  fun st => (Return tt,
             {| heap := heap st; stdout := stdout st ++ [text]; dirs := dirs st;
                trace := trace st ++ [EPrint text] |}).

(** [os.path.join(a, b)] on POSIX. *)
Definition os_path_join (a b : string) : string :=
  if PyStr.startswith "/" b then b
  else if String.eqb a EmptyString then b
  else match String.get (String.length a - 1) a with
       | Some "/"%char => a +:+ b
       | _ => a +:+ "/" +:+ b
       end.

(** [os.makedirs(path, exist_ok=True)]: afterwards [path] is a directory,
    and an existing directory is left as it is.  Only [path] is recorded:
    not the parents that the call makes on its way, nor a refusal of the
    file system. *)
Definition os_makedirs_exist_ok (path : string) : M unit :=
  fun st => (Return tt,
             {| heap := heap st; stdout := stdout st; dirs := {[ path ]} ∪ dirs st;
                trace := trace st ++ [EMakedirs path] |}).

(** Allocation of a new object. *)
Definition new_object (c : pyclass) (attrs : gmap string value) : M value :=
  fun st => (Return (VRef (length (heap st))),
             {| heap := heap st ++ [Object c attrs]; stdout := stdout st;
                dirs := dirs st; trace := trace st |}).

(** [v.name = x].  Only objects take attributes, and not all of them. *)
Definition setattr (v : value) (name : string) (x : value) : M unit :=
  match v with
  | VRef l =>
      fun st =>
        match heap st !! l with
        | Some o =>
            match attribute_refusal (obj_class o) with
            | Some k =>
                (Raise (Exc k ("object has no attribute '" +:+ name +:+ "'")), st)
            | None =>
                (Return tt,
                 {| heap := <[ l := Object (obj_class o) (<[ name := x ]> (obj_attrs o)) ]>
                              (heap st);
                    stdout := stdout st; dirs := dirs st; trace := trace st |})
            end
        | None => (Raise (Exc RuntimeError "dangling reference"), st)
        end
  | _ =>
      raise AttributeError
        ("'" +:+ type_name v +:+ "' object has no attribute '" +:+ name +:+ "'")
  end.

(** [v.name] *)
Definition getattr (v : value) (name : string) : M value :=
  match v with
  | VRef l =>
      fun st =>
        match heap st !! l with
        | Some o =>
            match obj_attrs o !! name with
            | Some x => (Return x, st)
            | None => (Raise (Exc AttributeError
                                ("object has no attribute '" +:+ name +:+ "'")), st)
            end
        | None => (Raise (Exc RuntimeError "dangling reference"), st)
        end
  | _ =>
      raise AttributeError
        ("'" +:+ type_name v +:+ "' object has no attribute '" +:+ name +:+ "'")
  end.

(** [isinstance(v, LCEmbeddings)] *)
Definition isinstance_LCEmbeddings (v : value) : M bool :=
  fun st =>
    (Return (match v with
             | VRef l => match heap st !! l with
                         | Some o => is_LCEmbeddings (obj_class o)
                         | None => false
                         end
             | _ => false
             end), st).

(** [l[i]] on a list of strings. *)
Definition py_index (l : list string) (i : nat) : M string :=
  match l !! i with
  | Some x => mret x
  | None => raise IndexError "list index out of range"
  end.

(** ** Collaborators

    Modelled from the spec: the provider classes, the credential validator
    and [get_cache_dir] belong to packages outside this module.  A
    constructor, once its package is imported, allocates an object of its
    class that records the arguments it was given, and does nothing else;
    what a collaborator decides on its own (the key check, the remote
    embedding call) is read from the [world]. *)

Definition MockEmbedding (embed_dim : Z) : M value :=
  new_object cls_MockEmbedding {[ "embed_dim" := VInt embed_dim ]}.

Definition OpenAIEmbedding (w : world) : M value :=
  new_object cls_OpenAIEmbedding {[ "api_key" := openai_api_key w ]}.

Definition validate_openai_api_key (w : world) (api_key : value) : M unit :=
  log EValidateKey ;;
  match openai_key_rejection w api_key with
  | Some msg => raise ValueError msg
  | None => mret tt
  end.

Definition ClipEmbedding (model_name : string) : M value :=
  new_object cls_ClipEmbedding {[ "model_name" := VStr model_name ]}.

Definition HuggingFaceEmbedding (model_name : value) (cache_folder : string) : M value :=
  new_object cls_HuggingFaceEmbedding
    (<[ "model_name" := model_name ]> {[ "cache_folder" := VStr cache_folder ]}).

Definition LangchainEmbedding (langchain_embeddings : value) : M value :=
  new_object cls_LangchainEmbedding {[ "_langchain_embeddings" := langchain_embeddings ]}.

Definition AzureOpenAIMultiModal
    (model engine azure_endpoint : string) (api_key : value) (api_version : string) : M value :=
  new_object cls_AzureOpenAIMultiModal
    (<[ "model" := VStr model ]>
     (<[ "engine" := VStr engine ]>
      (<[ "azure_endpoint" := VStr azure_endpoint ]>
       (<[ "api_key" := api_key ]> {[ "api_version" := VStr api_version ]})))).

Definition get_cache_dir (w : world) : M string := mret (cache_dir w).

(** [azure_openai_multi_modal.embed(text)] followed by
    [response['data'][0]['embedding']]. *)
Definition embed_and_extract (w : world)
    (text : string) (api_key : value) (endpoint model_name api_version : string)
  : M (list spec_float) :=
  fun st => (azure_embed w text api_key endpoint model_name api_version,
             {| heap := heap st; stdout := stdout st; dirs := dirs st;
                trace := trace st ++ [EAzureEmbed text] |}).

(** ** [get_azure_openai_embedding] *)

Definition get_azure_openai_embedding (w : world)
    (text : string) (api_key : value) (endpoint model_name api_version : string)
  : M (list spec_float) :=
  import_module w mod_legacy_azure_openai ;;
  _ ← AzureOpenAIMultiModal model_name "your_deployment_name" endpoint api_key api_version;
  embed_and_extract w text api_key endpoint model_name api_version.

(** ** [resolve_embed_model] *)

Definition nl : string := String (ascii_of_nat 10) EmptyString.

Definition msg_openai_missing : string :=
  "`llama-index-embeddings-openai` package not found, " +:+
  "please run `pip install llama-index-embeddings-openai`".

Definition msg_openai_key (original : string) : string :=
  nl +:+ "******" +:+ nl +:+
  "Could not load OpenAI embedding model. " +:+
  "If you intended to use OpenAI, please check your OPENAI_API_KEY." +:+ nl +:+
  "Original error:" +:+ nl +:+
  original +:+
  nl +:+ "Consider using embed_model='local'." +:+ nl +:+
  "Visit our documentation for more embedding options: " +:+
  "https://docs.llamaindex.ai/en/stable/module_guides/models/" +:+
  "embeddings.html#modules" +:+
  nl +:+ "******".

Definition msg_clip_missing : string :=
  "`llama-index-embeddings-clip` package not found, " +:+
  "please run `pip install llama-index-embeddings-clip` and `pip install git+https://github.com/openai/CLIP.git`".

Definition msg_not_local : string :=
  "embed_model must start with str 'local' or of type BaseEmbedding".

Definition msg_huggingface_missing : string :=
  "`llama-index-embeddings-huggingface` package not found, " +:+
  "please run `pip install llama-index-embeddings-huggingface`".

Definition msg_langchain_missing : string :=
  "`llama-index-embeddings-langchain` package not found, " +:+
  "please run `pip install llama-index-embeddings-langchain`".

Definition msg_azure_form : string :=
  "For Azure OpenAI, embed_model should be of the form 'azure-openai:<endpoint>:<model_name>:<api_version>'".

Definition msg_azure_key : string :=
  "AZURE_OPENAI_API_KEY environment variable is not set.".

Definition msg_disabled : string :=
  "Embeddings have been explicitly disabled. Using MockEmbedding.".

(** [except ImportError: raise ImportError(msg)] *)
Definition on_ImportError {A} (msg : string) (e : exception) : option (M A) :=
  match exc_kind e with
  | ImportError => Some (raise ImportError msg)
  | _ => None
  end.

(** Lines 48-51: whether [LCEmbeddings] is bound to the class (and not to [None]). *)
Definition import_LCEmbeddings (w : world) : M bool :=
  try_except
    (import_module w mod_bridge_langchain ;; mret true)
    (fun e => match exc_kind e with
              | ImportError => Some (mret false)
              | _ => None
              end).

(** Lines 59-87: the hosted default provider. *)
Definition resolve_default (w : world) : M value :=
  try_except
    (import_module w mod_embeddings_openai ;;
     import_module w mod_embeddings_openai_utils ;;
     embed_model ← OpenAIEmbedding w;
     api_key ← getattr embed_model "api_key";
     validate_openai_api_key w api_key ;;
     mret embed_model)
    (fun e => match exc_kind e with
              | ImportError => Some (raise ImportError msg_openai_missing)
              | ValueError => Some (raise ValueError (msg_openai_key (exc_msg e)))
              | _ => None
              end).

(** Lines 89-101: a string that starts with ["clip"]. *)
Definition resolve_clip (w : world) (embed_model : string) : M value :=
  try_except
    (import_module w mod_embeddings_clip ;;
     clip_model_name ←
       (if PyStr.contains ":" embed_model
        then py_index (PyStr.split ":" embed_model) 1
        else mret "ViT-B/32");
     ClipEmbedding clip_model_name)
    (on_ImportError msg_clip_missing).

(** Lines 103-127: whatever is still a string at this point. *)
Definition resolve_str (w : world) (embed_model : value) : M value :=
  match embed_model with
  | VStr s =>
      try_except
        (import_module w mod_embeddings_huggingface ;;
         let splits := PyStr.split1 ":" s in
         is_local ← py_index splits 0;
         model_name ←
           (if Nat.ltb 1 (length splits)
            then (x ← py_index splits 1; mret (VStr x))
            else mret VNone);
         if negb (String.eqb is_local "local")
         then raise ValueError msg_not_local
         else
           root ← get_cache_dir w;
           let cache_folder := os_path_join root "models" in
           os_makedirs_exist_ok cache_folder ;;
           HuggingFaceEmbedding model_name cache_folder)
        (on_ImportError msg_huggingface_missing)
  | _ => mret embed_model
  end.

(** Lines 129-140: an instance of the langchain interface is wrapped. *)
Definition resolve_langchain (w : world) (LCEmbeddings : bool) (embed_model : value) : M value :=
  is_lc ← isinstance_LCEmbeddings embed_model;
  if LCEmbeddings && is_lc
  then try_except
         (import_module w mod_embeddings_langchain ;;
          LangchainEmbedding embed_model)
         (on_ImportError msg_langchain_missing)
  else mret embed_model.

(** Lines 142-154: a string that starts with ["azure-openai"]. *)
Definition resolve_azure (w : world) (embed_model : value) : M value :=
  match embed_model with
  | VStr s =>
      if PyStr.startswith "azure-openai" s
      then
        let splits := PyStr.split ":" s in
        if negb (Nat.eqb (length splits) 4)
        then raise ValueError msg_azure_form
        else
          api_key ← os_getenv w "AZURE_OPENAI_API_KEY";
          if negb (truthy api_key)
          then raise ValueError msg_azure_key
          else
            endpoint ← py_index splits 1;
            model_name ← py_index splits 2;
            api_version ← py_index splits 3;
            v ← get_azure_openai_embedding w s api_key endpoint model_name api_version;
            mret (VFloats v)
      else mret embed_model
  | _ => mret embed_model
  end.

(** Lines 156-158: embeddings explicitly disabled. *)
Definition resolve_none (embed_model : value) : M value :=
  match embed_model with
  | VNone => print msg_disabled ;; MockEmbedding 1
  | _ => mret embed_model
  end.

(** The handle that is bound: [callback_manager or Settings.callback_manager]. *)
Definition bound_handle (w : world) (callback_manager : value) : value :=
  py_or callback_manager (Settings_callback_manager w).

(** Lines 103-162. *)
Definition resolve_rest (w : world) (LCEmbeddings : bool)
    (embed_model callback_manager : value) : M value :=
  embed_model ← resolve_str w embed_model;
  embed_model ← resolve_langchain w LCEmbeddings embed_model;
  embed_model ← resolve_azure w embed_model;
  embed_model ← resolve_none embed_model;
  setattr embed_model "callback_manager" (bound_handle w callback_manager) ;;
  mret embed_model.

Definition resolve_embed_model (w : world) (embed_model callback_manager : value) : M value :=
  LCEmbeddings ← import_LCEmbeddings w;
  if eq_str embed_model "default"
  then
    is_testing ← os_getenv w "IS_TESTING";
    if truthy is_testing
    then
      embed_model ← MockEmbedding 8;
      setattr embed_model "callback_manager" (bound_handle w callback_manager) ;;
      mret embed_model
    else
      embed_model ← resolve_default w;
      resolve_rest w LCEmbeddings embed_model callback_manager
  else
    match embed_model with
    | VStr s =>
        if PyStr.startswith "clip" s
        then
          embed_model ← resolve_clip w s;
          resolve_rest w LCEmbeddings embed_model callback_manager
        else resolve_rest w LCEmbeddings embed_model callback_manager
    | _ => resolve_rest w LCEmbeddings embed_model callback_manager
    end.

(** ** [save_embedding] and [load_embedding]

    The files are a map from path to text.  [str] and [float] on floating
    point numbers are Python built-ins; the two functions are defined over
    them. *)

Abbreviation file_store := (gmap string string).

(** Text-mode reading translates ["\r\n"] and ["\r"] to ["\n"]. *)
Fixpoint universal_newlines (s : string) : string :=
  match s with
  | EmptyString => EmptyString
  | String a s' =>
      if Ascii.eqb a (ascii_of_nat 13) then
        match s' with
        | String b s'' =>
            if Ascii.eqb b (ascii_of_nat 10)
            then String (ascii_of_nat 10) (universal_newlines s'')
            else String (ascii_of_nat 10) (universal_newlines s')
        | EmptyString => String (ascii_of_nat 10) EmptyString
        end
      else String a (universal_newlines s')
  end.

(** The first line of a text, with its newline; [None] for the empty text. *)
Fixpoint readline_aux (s : string) : string :=
  match s with
  | EmptyString => EmptyString
  | String a s' =>
      if Ascii.eqb a (ascii_of_nat 10) then String a EmptyString
      else String a (readline_aux s')
  end.

Definition first_line (s : string) : option string :=
  match s with
  | EmptyString => None
  | _ => Some (readline_aux s)
  end.

(** [[f(x) for x in l]]: the first failure is the failure of the whole. *)
Fixpoint map_outcome {A B} (f : A -> outcome B) (l : list A) : outcome (list B) :=
  match l with
  | [] => Return []
  | x :: rest =>
      match f x with
      | Raise e => Raise e
      | Return y =>
          match map_outcome f rest with
          | Raise e => Raise e
          | Return ys => Return (y :: ys)
          end
      end
  end.

Section Persistence.

(** [str(x)] for a float [x], and [float(s)]. *)
Variable py_str : spec_float -> string.
Variable py_float : string -> outcome spec_float.

Definition save_embedding (embedding : list spec_float) (file_path : string)
    (fs : file_store) : outcome unit * file_store :=
  (Return tt, <[ file_path := PyStr.join "," (map py_str embedding) ]> fs).

(** What [load_embedding] makes of the text of a file. *)
Definition load_text (text : string) : outcome (list spec_float) :=
  match first_line (universal_newlines text) with
  | Some line => map_outcome py_float (PyStr.split "," (PyStr.strip line))
  | None =>
      Raise (Exc UnboundLocalError
               "cannot access local variable 'embedding' where it is not associated with a value")
  end.

Definition load_embedding (file_path : string) (fs : file_store)
  : outcome (list spec_float) :=
  match fs !! file_path with
  | Some text => load_text text
  | None => Raise (Exc FileNotFoundError "No such file or directory")
  end.

End Persistence.

(** Python's [==] on floats: a NaN equals nothing, the two zeros are equal. *)
Definition float_eq (x y : spec_float) : bool := SFeqb x y.

Definition is_nan (x : spec_float) : bool :=
  match x with
  | S754_nan => true
  | _ => false
  end.

(** The characters that the text of a float is made of: digits, the
    point, the exponent mark, the signs and the letters of [inf] and [nan]. *)
Definition float_char (a : ascii) : bool :=
  let n := nat_of_ascii a in
  (Nat.leb 48 n && Nat.leb n 57)
  || Nat.eqb n 46 || Nat.eqb n 101 || Nat.eqb n 43 || Nat.eqb n 45
  || Nat.eqb n 105 || Nat.eqb n 110 || Nat.eqb n 102 || Nat.eqb n 97.

Fixpoint all_chars (P : ascii -> bool) (s : string) : bool :=
  match s with
  | EmptyString => true
  | String a s' => P a && all_chars P s'
  end.

(** What Python guarantees of [str] and [float] at a float [x]: the text
    is not empty, is made of [float_char]s, and reads back as [x]. *)
Definition repr_contract (py_str : spec_float -> string)
    (py_float : string -> outcome spec_float) (x : spec_float) : Prop :=
  py_str x <> EmptyString /\
  all_chars float_char (py_str x) = true /\
  py_float (py_str x) = Return x.

(** Neither a line feed nor a carriage return. *)
Definition not_newline (a : ascii) : bool :=
  negb (Ascii.eqb a (ascii_of_nat 10)) && negb (Ascii.eqb a (ascii_of_nat 13)).

(** The characters of a saved line: those of the numbers, and the comma. *)
Definition saved_char (a : ascii) : bool := float_char a || Ascii.eqb a ",".

(** The built-ins at two floats: [str(1.5)] is ["1.5"] and [str(-2.0)]
    is ["-2.0"], and [float] reads the two texts back. *)
Definition f_1_5 : spec_float := S754_finite false 6755399441055744 (-52).
Definition f_neg_2 : spec_float := S754_finite true 4503599627370496 (-51).

Definition same_float (x y : spec_float) : bool :=
  match x, y with
  | S754_zero s, S754_zero t => Bool.eqb s t
  | S754_infinity s, S754_infinity t => Bool.eqb s t
  | S754_nan, S754_nan => true
  | S754_finite s m e, S754_finite t n f => Bool.eqb s t && Pos.eqb m n && Z.eqb e f
  | _, _ => false
  end.

Definition sample_str (x : spec_float) : string :=
  if same_float x f_1_5 then "1.5"
  else if same_float x f_neg_2 then "-2.0"
  else "nan".

Definition sample_float (s : string) : outcome spec_float :=
  if String.eqb s "1.5" then Return f_1_5
  else if String.eqb s "-2.0" then Return f_neg_2
  else Raise (Exc ValueError ("could not convert string to float: '" +:+ s +:+ "'")).

(** ** The vocabulary of the specification *)

(** A state with further events on its trace. *)
Definition traced (st : state) (es : list event) : state :=
  {| heap := heap st; stdout := stdout st; dirs := dirs st; trace := trace st ++ es |}.

(** The failure classes of the specification, read off the raise sites:
    a missing optional package is an [ImportError]; a malformed specifier
    is the [ValueError] of line 113 or of line 145; the other
    [ValueError]s report a credential. *)
Inductive failure_class :=
| MissingDependency
| CredentialError
| InvalidSpecifier
| Unclassified.

Definition classify (e : exception) : failure_class :=
  match exc_kind e with
  | ImportError => MissingDependency
  | ValueError =>
      if String.eqb (exc_msg e) msg_not_local || String.eqb (exc_msg e) msg_azure_form
      then InvalidSpecifier
      else CredentialError
  | _ => Unclassified
  end.






(** [sub in msg] *)
Fixpoint mentions (msg sub : string) : bool :=
  PyStr.startswith sub msg ||
  match msg with
  | EmptyString => false
  | String _ msg' => mentions msg' sub
  end.

(** The declared type of the specifier, [Optional[EmbedType]]: [None], a
    string, a [BaseEmbedding] or an instance of the langchain interface.
    [lc] tells whether that interface could be imported: it has instances
    only where it can. *)
Definition well_typed (lc : bool) (st : state) (v : value) : bool :=
  match v with
  | VNone | VStr _ => true
  | VRef l =>
      match heap st !! l with
      | Some o => is_BaseEmbedding (obj_class o) || (is_LCEmbeddings (obj_class o) && lc)
      | None => false
      end
  | _ => false
  end.

Definition is_EmbedType (w : world) (st : state) (v : value) : bool :=
  well_typed (importable w mod_bridge_langchain) st v.

Definition is_str (v : value) : bool :=
  match v with
  | VStr _ => true
  | _ => false
  end.

(** [v] refers to a provider object of the heap [h]. *)
Definition provider_in (h : list object) (v : value) : Prop :=
  exists l o, v = VRef l /\ h !! l = Some o /\ is_BaseEmbedding (obj_class o) = true.

(** Lines 103-162 with lines 142-154 left out. *)
Definition resolve_rest_without_azure (w : world) (LCEmbeddings : bool)
    (embed_model callback_manager : value) : M value :=
  embed_model ← resolve_str w embed_model;
  embed_model ← resolve_langchain w LCEmbeddings embed_model;
  embed_model ← resolve_none embed_model;
  setattr embed_model "callback_manager" (bound_handle w callback_manager) ;;
  mret embed_model.

(** ** What a call may leave behind *)

(** The events that only lines 26-39 and 142-154 produce. *)
Definition azure_event (e : event) : bool :=
  match e with
  | EGetenv name => String.eqb name "AZURE_OPENAI_API_KEY"
  | EImport mod_legacy_azure_openai => true
  | EAzureEmbed _ => true
  | _ => false
  end.

(** A call of [os.makedirs]. *)
Definition makedirs_event (e : event) : bool :=
  match e with
  | EMakedirs _ => true
  | _ => false
  end.

(** Whether a computation may print the notice of line 157 and may make
    the cache folder of line 118. *)
Record perms := Perms {
  may_print : bool;
  may_mkdir : bool
}.

(** The specifiers that reach the local-model path: the strings that are
    neither ["default"] nor start with ["clip"]. *)
Definition reaches_local (embed_model : value) : bool :=
  match embed_model with
  | VStr s => negb (String.eqb s "default") && negb (PyStr.startswith "clip" s)
  | _ => false
  end.

(** The permissions that a specifier needs. *)
Definition perms_of (embed_model : value) : perms :=
  {| may_print := match embed_model with VNone => true | _ => false end;
     may_mkdir := reaches_local embed_model |}.

(** Outside the heap: standard output gains nothing but the notice, and
    nothing without the permission; the directories gain nothing but the
    cache folder, and nothing without the permission; the trace gains no
    [azure_event], and no [makedirs_event] without the permission. *)
Definition env_grows (p : perms) (w : world) (st st' : state) : Prop :=
  (exists out, stdout st' = stdout st ++ out /\ Forall (eq msg_disabled) out /\
               (may_print p = false -> out = [])) /\
  dirs st ⊆ dirs st' /\
  dirs st' ⊆ {[ os_path_join (cache_dir w) "models" ]} ∪ dirs st /\
  (may_mkdir p = false -> dirs st' = dirs st) /\
  (exists es, trace st' = trace st ++ es /\ Forall (fun e => azure_event e = false) es /\
              (may_mkdir p = false -> Forall (fun e => makedirs_event e = false) es)).

(** The heap is extended at its end and otherwise left alone. *)
Definition grows (p : perms) (w : world) (st st' : state) : Prop :=
  (exists ext, heap st' = heap st ++ ext) /\ env_grows p w st st'.

Definition monotone {A} (p : perms) (w : world) (m : M A) : Prop :=
  forall st, grows p w st (snd (m st)).

(** What a call that ends in [r] has done to the objects that were there
    before it: none is lost, the ones that are not returned are as they
    were, and a returned one differs at most in its [callback_manager]. *)
Definition footprint (p : perms) (w : world) (st : state) (r : outcome value)
    (st' : state) : Prop :=
  env_grows p w st st' /\
  length (heap st) <= length (heap st') /\
  (forall l o, heap st !! l = Some o -> r <> Return (VRef l) -> heap st' !! l = Some o) /\
  (forall l o, heap st !! l = Some o -> r = Return (VRef l) ->
     exists o', heap st' !! l = Some o' /\ obj_class o' = obj_class o /\
       forall name, name <> "callback_manager" -> obj_attrs o' !! name = obj_attrs o !! name).

Definition bounded_footprint (p : perms) (w : world) (m : M value) : Prop :=
  forall st, footprint p w st (fst (m st)) (snd (m st)).

(** Sample surroundings: nothing set and everything installed; the same
    with no optional package; test mode. *)
Definition st0 : state := State [] [] ∅ [].

Definition w_all : world :=
  World ∅ (fun _ => true) (VRef 0) "/cache" (VStr "sk") (fun _ => None)
        (fun _ _ _ _ _ => Return []).

Definition w_none : world :=
  World ∅ (fun _ => false) (VRef 0) "/cache" (VStr "sk") (fun _ => None)
        (fun _ _ _ _ _ => Return []).



(** A heap holding the default handle, a caller's handle, a provider that
    is bound to the default handle, and a langchain embeddings object. *)
Definition st_objs : state :=
  State [ Object cls_CallbackManager ∅;
          Object cls_CallbackManager ∅;
          Object cls_CustomEmbedding
            (<[ "callback_manager" := VRef 0 ]> {[ "model_name" := VStr "mine" ]});
          Object cls_LCEmbeddingsImpl ∅ ]
        [] ∅ [].

(** The same heap with the provider bound to the caller's handle. *)
Definition st_rebound : state :=
  State [ Object cls_CallbackManager ∅;
          Object cls_CallbackManager ∅;
          Object cls_CustomEmbedding
            (<[ "callback_manager" := VRef 1 ]> {[ "model_name" := VStr "mine" ]}) ]
        [] ∅ [].

(** A heap with a langchain embeddings object that is a pydantic model. *)
Definition st_model : state :=
  State [ Object cls_CallbackManager ∅; Object cls_LCEmbeddingsModel ∅ ] [] ∅ [].

(** A heap whose provider is also an instance of the langchain interface. *)
Definition st_dual : state :=
  State [ Object cls_CallbackManager ∅;
          Object cls_CallbackManager ∅;
          Object cls_DualEmbedding
            (<[ "callback_manager" := VRef 0 ]> {[ "model_name" := VStr "both" ]}) ]
        [] ∅ [].

(** ** Running computations *)

Lemma run_bind {A B} (m : M A) (f : A -> M B) (st : state) :
  (m ≫= f) st =
  match m st with
  | (Return a, st') => f a st'
  | (Raise e, st') => (Raise e, st')
  end.
Proof. reflexivity. Qed.

Lemma run_ret {A} (a : A) (st : state) : (mret a : M A) st = (Return a, st).
Proof. reflexivity. Qed.

(** Push a state through binds and returns. *)
Ltac mrun :=
  repeat first
    [ rewrite run_ret
    | rewrite run_bind
    | progress cbn beta iota
    | progress cbn [heap stdout dirs trace obj_class obj_attrs] ].

Lemma bind_Return_inv {A B} (m : M A) (f : A -> M B) st b st' :
  (m ≫= f) st = (Return b, st') ->
  exists a st1, m st = (Return a, st1) /\ f a st1 = (Return b, st').
Proof.
  rewrite run_bind. destruct (m st) as [[a|e] st1]; [eauto | discriminate].
Qed.

Lemma insert_last {A} (h : list A) (o o' : A) :
  <[ length h := o' ]> (h ++ [o]) = h ++ [o'].
Proof.
  rewrite insert_app_r_alt by lia. rewrite Nat.sub_diag. reflexivity.
Qed.

Lemma lookup_last {A} (h : list A) (o : A) : (h ++ [o]) !! length h = Some o.
Proof. apply list_lookup_middle. reflexivity. Qed.

Lemma run_import_LCEmbeddings w st :
  import_LCEmbeddings w st =
  (Return (importable w mod_bridge_langchain),
   {| heap := heap st; stdout := stdout st; dirs := dirs st;
      trace := trace st ++ [EImport mod_bridge_langchain] |}).
Proof.
  unfold import_LCEmbeddings, try_except, import_module.
  rewrite !run_bind. cbn [log].
  destruct (importable w mod_bridge_langchain); reflexivity.
Qed.

Lemma run_import_ok w m st :
  importable w m = true ->
  import_module w m st =
  (Return tt,
   {| heap := heap st; stdout := stdout st; dirs := dirs st;
      trace := trace st ++ [EImport m] |}).
Proof. intros H. unfold import_module. rewrite run_bind. cbn [log]. rewrite H. reflexivity. Qed.

Lemma run_import_missing w m st :
  importable w m = false ->
  import_module w m st =
  (Raise (Exc ImportError ("No module named '" +:+ module_name m +:+ "'")),
   {| heap := heap st; stdout := stdout st; dirs := dirs st;
      trace := trace st ++ [EImport m] |}).
Proof. intros H. unfold import_module. rewrite run_bind. cbn [log]. rewrite H. reflexivity. Qed.

Lemma run_setattr_ref l o name x st :
  heap st !! l = Some o ->
  attribute_refusal (obj_class o) = None ->
  setattr (VRef l) name x st =
  (Return tt,
   {| heap := <[ l := Object (obj_class o) (<[ name := x ]> (obj_attrs o)) ]> (heap st);
      stdout := stdout st; dirs := dirs st; trace := trace st |}).
Proof. intros H Ha. unfold setattr. rewrite H, Ha. reflexivity. Qed.

Lemma run_isinstance_LCEmbeddings_ref l o st :
  heap st !! l = Some o ->
  isinstance_LCEmbeddings (VRef l) st = (Return (is_LCEmbeddings (obj_class o)), st).
Proof. intros H. unfold isinstance_LCEmbeddings. rewrite H. reflexivity. Qed.

(** An object that is not wrapped passes through lines 103-162 with only
    its [callback_manager] attribute assigned. *)
Lemma run_resolve_rest_ref w lc l o cm st :
  heap st !! l = Some o ->
  lc && is_LCEmbeddings (obj_class o) = false ->
  attribute_refusal (obj_class o) = None ->
  resolve_rest w lc (VRef l) cm st =
  (Return (VRef l),
   {| heap := <[ l := Object (obj_class o)
                         (<[ "callback_manager" := bound_handle w cm ]> (obj_attrs o)) ]> (heap st);
      stdout := stdout st; dirs := dirs st; trace := trace st |}).
Proof.
  intros Hl Hlc Ha. unfold resolve_rest, resolve_str, resolve_langchain. mrun.
  rewrite (run_isinstance_LCEmbeddings_ref _ _ _ Hl), Hlc. mrun.
  unfold resolve_azure, resolve_none. mrun.
  rewrite (run_setattr_ref _ _ _ _ _ Hl Ha). mrun. reflexivity.
Qed.

(** The same for an object that has just been allocated. *)
Lemma run_resolve_rest_new w lc c attrs cm h out ds tr :
  lc && is_LCEmbeddings c = false ->
  attribute_refusal c = None ->
  resolve_rest w lc (VRef (length h)) cm
    {| heap := h ++ [Object c attrs]; stdout := out; dirs := ds; trace := tr |} =
  (Return (VRef (length h)),
   {| heap := h ++ [Object c (<[ "callback_manager" := bound_handle w cm ]> attrs)];
      stdout := out; dirs := ds; trace := tr |}).
Proof.
  intros Hlc Ha.
  rewrite (run_resolve_rest_ref w lc (length h) (Object c attrs));
    cbn [heap obj_class obj_attrs stdout dirs trace].
  - rewrite insert_last. reflexivity.
  - apply lookup_last.
  - exact Hlc.
  - exact Ha.
Qed.

(** ** Facts about [split] *)

Lemma split1_cons c s : exists f rest, PyStr.split1 c s = f :: rest.
Proof.
  destruct s as [|a s]; cbn [PyStr.split PyStr.split1]; [eauto|].
  destruct (Ascii.eqb a c); [eauto|].
  destruct (PyStr.split1 c s); eauto.
Qed.

Lemma split_cons c s : exists f rest, PyStr.split c s = f :: rest.
Proof.
  destruct s as [|a s]; cbn [PyStr.split PyStr.split1]; [eauto|].
  destruct (Ascii.eqb a c); [eauto|].
  destruct (PyStr.split c s); eauto.
Qed.

Lemma append_nil_l (s : string) : EmptyString +:+ s = s.
Proof. reflexivity. Qed.

Lemma append_cons_l (a : ascii) (s t : string) : String a s +:+ t = String a (s +:+ t).
Proof. reflexivity. Qed.

(** Splitting at the first separator: the text before it and the text after it. *)
Lemma split1_app c pre post :
  PyStr.contains c pre = false ->
  PyStr.split1 c (pre +:+ String c post) = [pre; post].
Proof.
  induction pre as [|a pre IH]; rewrite ?append_nil_l, ?append_cons_l;
    cbn [PyStr.split1 PyStr.contains]; intros H.
  - rewrite Ascii.eqb_refl. reflexivity.
  - destruct (Ascii.eqb a c); [discriminate|]. rewrite (IH H). reflexivity.
Qed.

Lemma split1_no_sep c s :
  PyStr.contains c s = false -> PyStr.split1 c s = [s].
Proof.
  induction s as [|a s IH]; cbn [PyStr.split PyStr.split1 PyStr.contains]; intros H; [reflexivity|].
  destruct (Ascii.eqb a c); [discriminate|]. rewrite (IH H). reflexivity.
Qed.

Lemma split_no_sep c s :
  PyStr.contains c s = false -> PyStr.split c s = [s].
Proof.
  induction s as [|a s IH]; cbn [PyStr.split PyStr.split1 PyStr.contains]; intros H; [reflexivity|].
  destruct (Ascii.eqb a c); [discriminate|]. rewrite (IH H). reflexivity.
Qed.

Lemma split_app c pre post :
  PyStr.contains c pre = false ->
  PyStr.split c (pre +:+ String c post) = pre :: PyStr.split c post.
Proof.
  induction pre as [|a pre IH]; rewrite ?append_nil_l, ?append_cons_l;
    cbn [PyStr.split PyStr.contains]; intros H.
  - rewrite Ascii.eqb_refl. reflexivity.
  - destruct (Ascii.eqb a c); [discriminate|]. rewrite (IH H). reflexivity.
Qed.

(** The first field is a prefix of the string. *)
Lemma split1_prefix c s f rest :
  PyStr.split1 c s = f :: rest -> PyStr.startswith f s = true.
Proof.
  revert f rest. induction s as [|a s IH]; cbn [PyStr.split1]; intros f rest H.
  - injection H as <- _. reflexivity.
  - destruct (Ascii.eqb a c).
    + injection H as <- _. reflexivity.
    + destruct (PyStr.split1 c s) as [|f' rest'] eqn:E.
      * injection H as <- _. cbn [PyStr.startswith].
        rewrite Ascii.eqb_refl. reflexivity.
      * injection H as <- _. cbn [PyStr.startswith].
        rewrite Ascii.eqb_refl. eapply IH. reflexivity.
Qed.

(** A string containing the separator has at least two fields. *)
Lemma split_contains c s :
  PyStr.contains c s = true -> exists f g rest, PyStr.split c s = f :: g :: rest.
Proof.
  induction s as [|a s IH]; cbn [PyStr.split PyStr.contains]; intros H; [discriminate|].
  destruct (Ascii.eqb a c).
  - destruct (split_cons c s) as (g & rest & ->). eauto.
  - destruct (IH H) as (f & g & rest & ->). eauto.
Qed.

(** ** The string steps *)

Lemma run_resolve_str_missing w s st :
  importable w mod_embeddings_huggingface = false ->
  resolve_str w (VStr s) st =
  (Raise (Exc ImportError msg_huggingface_missing),
   traced st [EImport mod_embeddings_huggingface]).
Proof.
  intros H. unfold resolve_str, try_except. mrun.
  rewrite (run_import_missing _ _ _ H). reflexivity.
Qed.

Lemma run_resolve_str_not_local w s f rest st :
  importable w mod_embeddings_huggingface = true ->
  PyStr.split1 ":" s = f :: rest ->
  String.eqb f "local" = false ->
  resolve_str w (VStr s) st =
  (Raise (Exc ValueError msg_not_local),
   traced st [EImport mod_embeddings_huggingface]).
Proof.
  intros H Hs Hf. unfold resolve_str, try_except. mrun.
  rewrite (run_import_ok _ _ _ H), Hs. mrun.
  assert (Hm : forall st1,
    (if Nat.ltb 1 (length (f :: rest))
     then py_index (f :: rest) 1 ≫= (fun x => mret (VStr x))
     else mret VNone) st1 =
    (Return (match rest with [] => VNone | x :: _ => VStr x end), st1)).
  { intros st1. destruct rest; reflexivity. }
  unfold py_index at 1. cbn [lookup list_lookup]. mrun.
  rewrite Hm, Hf. reflexivity.
Qed.

Lemma run_resolve_str_local w s rest st :
  importable w mod_embeddings_huggingface = true ->
  PyStr.split1 ":" s = "local" :: rest ->
  resolve_str w (VStr s) st =
  (Return (VRef (length (heap st))),
   {| heap := heap st ++
              [Object cls_HuggingFaceEmbedding
                 (<[ "model_name" := match rest with [] => VNone | x :: _ => VStr x end ]>
                    {[ "cache_folder" := VStr (os_path_join (cache_dir w) "models") ]})];
      stdout := stdout st;
      dirs := {[ os_path_join (cache_dir w) "models" ]} ∪ dirs st;
      trace := trace st ++ [EImport mod_embeddings_huggingface;
                            EMakedirs (os_path_join (cache_dir w) "models")] |}).
Proof.
  intros H Hs. unfold resolve_str, try_except. mrun.
  rewrite (run_import_ok _ _ _ H), Hs. mrun.
  assert (Hm : forall st1,
    (if Nat.ltb 1 (length ("local" :: rest))
     then py_index ("local" :: rest) 1 ≫= (fun x => mret (VStr x))
     else mret VNone) st1 =
    (Return (match rest with [] => VNone | x :: _ => VStr x end), st1)).
  { intros st1. destruct rest; reflexivity. }
  unfold py_index at 1. cbn [lookup list_lookup]. mrun.
  rewrite Hm. cbn [String.eqb Ascii.eqb Bool.eqb negb]. unfold get_cache_dir. mrun.
  unfold os_makedirs_exist_ok, HuggingFaceEmbedding, new_object. mrun.
  rewrite <- app_assoc. reflexivity.
Qed.

Lemma resolve_rest_raise w lc em cm st e st1 :
  resolve_str w em st = (Raise e, st1) ->
  resolve_rest w lc em cm st = (Raise e, st1).
Proof. intros H. unfold resolve_rest. mrun. rewrite H. reflexivity. Qed.

Lemma resolve_rest_after_str w lc em cm st l st1 :
  resolve_str w em st = (Return (VRef l), st1) ->
  resolve_rest w lc em cm st = resolve_rest w lc (VRef l) cm st1.
Proof.
  intros H. unfold resolve_rest. mrun. rewrite H.
  unfold resolve_str at 1. mrun. reflexivity.
Qed.

(** A specifier that neither equals ["default"] nor starts with ["clip"]
    goes straight to lines 103-162. *)
Lemma resolve_embed_model_rest w em cm st :
  eq_str em "default" = false ->
  (forall s, em = VStr s -> PyStr.startswith "clip" s = false) ->
  resolve_embed_model w em cm st =
  resolve_rest w (importable w mod_bridge_langchain) em cm
    (traced st [EImport mod_bridge_langchain]).
Proof.
  intros Hd Hc. unfold resolve_embed_model. mrun.
  rewrite run_import_LCEmbeddings, Hd.
  destruct em; try reflexivity.
  rewrite (Hc _ eq_refl). reflexivity.
Qed.


Lemma traced_traced st a b : traced (traced st a) b = traced st (a ++ b).
Proof. unfold traced. cbn. rewrite <- app_assoc. reflexivity. Qed.

(** ** The mock paths *)

Lemma run_MockEmbedding n st :
  MockEmbedding n st =
  (Return (VRef (length (heap st))),
   {| heap := heap st ++ [Object cls_MockEmbedding {[ "embed_dim" := VInt n ]}];
      stdout := stdout st; dirs := dirs st; trace := trace st |}).
Proof. reflexivity. Qed.

Lemma run_setattr_new h c attrs name x out ds tr :
  attribute_refusal c = None ->
  setattr (VRef (length h)) name x
    {| heap := h ++ [Object c attrs]; stdout := out; dirs := ds; trace := tr |} =
  (Return tt,
   {| heap := h ++ [Object c (<[ name := x ]> attrs)];
      stdout := out; dirs := ds; trace := tr |}).
Proof.
  intros Ha.
  rewrite (run_setattr_ref _ (Object c attrs)) by (apply lookup_last || exact Ha).
  mrun. rewrite insert_last. reflexivity.
Qed.

Lemma run_resolve_rest_None w lc cm st :
  resolve_rest w lc VNone cm st =
  (Return (VRef (length (heap st))),
   {| heap := heap st ++
              [Object cls_MockEmbedding
                 (<[ "callback_manager" := bound_handle w cm ]> {[ "embed_dim" := VInt 1 ]})];
      stdout := stdout st ++ [msg_disabled];
      dirs := dirs st;
      trace := trace st ++ [EPrint msg_disabled] |}).
Proof.
  unfold resolve_rest, resolve_str, resolve_langchain. mrun.
  cbn [isinstance_LCEmbeddings]. mrun. rewrite andb_false_r. mrun.
  unfold resolve_azure, resolve_none. mrun.
  unfold print at 1. mrun. rewrite run_MockEmbedding. mrun.
  rewrite run_setattr_new by reflexivity. reflexivity.
Qed.

(** C5.  Resolving [None] always returns a new mock provider of
    dimensionality 1, bound to the handle, and always prints the notice
    to standard output; nothing else is touched. *)
Theorem C5_none_gives_mock_of_dim_1_and_notice w cm st :
  resolve_embed_model w VNone cm st =
  (Return (VRef (length (heap st))),
   {| heap := heap st ++
              [Object cls_MockEmbedding
                 (<[ "callback_manager" := bound_handle w cm ]> {[ "embed_dim" := VInt 1 ]})];
      stdout := stdout st ++ [msg_disabled];
      dirs := dirs st;
      trace := trace st ++ [EImport mod_bridge_langchain; EPrint msg_disabled] |}).
Proof.
  rewrite resolve_embed_model_rest by (reflexivity || discriminate).
  rewrite run_resolve_rest_None. unfold traced. mrun.
  rewrite <- app_assoc. reflexivity.
Qed.

(** Lines 53-57. *)
Lemma run_resolve_default_testing w cm st :
  truthy (getenv_value w "IS_TESTING") = true ->
  resolve_embed_model w (VStr "default") cm st =
  (Return (VRef (length (heap st))),
   {| heap := heap st ++
              [Object cls_MockEmbedding
                 (<[ "callback_manager" := bound_handle w cm ]> {[ "embed_dim" := VInt 8 ]})];
      stdout := stdout st;
      dirs := dirs st;
      trace := trace st ++ [EImport mod_bridge_langchain; EGetenv "IS_TESTING"] |}).
Proof.
  intros Ht. unfold resolve_embed_model. mrun.
  rewrite run_import_LCEmbeddings. mrun.
  change (eq_str (VStr "default") "default") with true. mrun.
  unfold os_getenv at 1. mrun. cbn [log]. mrun. rewrite Ht.
  mrun. rewrite run_MockEmbedding. mrun.
  rewrite run_setattr_new by reflexivity. rewrite <- app_assoc. reflexivity.
Qed.



(** ** Pass-through of a provider *)

Lemma provider_takes_callback_manager c :
  is_BaseEmbedding c = true -> attribute_refusal c = None.
Proof. destruct c; (reflexivity || discriminate). Qed.

(** C7, as the specification states it, fails for a provider that is also
    an instance of the langchain interface: where the bridge and the
    langchain package are installed, line 129 takes it for a foreign
    instance and line 135 wraps it.  The value returned is the new
    wrapper, and the handle of the provider that was passed in is not
    overwritten. *)
Lemma C7_counterexample_provider_that_is_also_langchain :
  heap st_dual !! 2 =
    Some (Object cls_DualEmbedding
            (<[ "callback_manager" := VRef 0 ]> {[ "model_name" := VStr "both" ]})) /\
  is_BaseEmbedding cls_DualEmbedding = true /\
  fst (resolve_embed_model w_all (VRef 2) (VRef 1) st_dual) = Return (VRef 3) /\
  heap (snd (resolve_embed_model w_all (VRef 2) (VRef 1) st_dual)) !! 3 =
    Some (Object cls_LangchainEmbedding
            (<[ "callback_manager" := VRef 1 ]> {[ "_langchain_embeddings" := VRef 2 ]})) /\
  heap (snd (resolve_embed_model w_all (VRef 2) (VRef 1) st_dual)) !! 2 =
    Some (Object cls_DualEmbedding
            (<[ "callback_manager" := VRef 0 ]> {[ "model_name" := VStr "both" ]})).
Proof. repeat split; reflexivity. Qed.

(** C7, amended.  A provider object that line 129 does not take for a
    foreign instance (it is no instance of the langchain interface, or
    that interface cannot be imported) is returned as the same object;
    the only change to the heap is that its [callback_manager] attribute
    now holds the handle, every other attribute of it and every other
    object being as before; the handle is the caller's when one is
    supplied and [Settings.callback_manager] when none is; and resolving
    the result once more with the same handle leaves the heap as it is. *)
Theorem C7_provider_passes_through w l o cm st :
  heap st !! l = Some o ->
  is_BaseEmbedding (obj_class o) = true ->
  importable w mod_bridge_langchain && is_LCEmbeddings (obj_class o) = false ->
  let o' := Object (obj_class o)
                   (<[ "callback_manager" := bound_handle w cm ]> (obj_attrs o)) in
  let st1 := {| heap := <[ l := o' ]> (heap st); stdout := stdout st; dirs := dirs st;
                trace := trace st ++ [EImport mod_bridge_langchain] |} in
  resolve_embed_model w (VRef l) cm st = (Return (VRef l), st1) /\
  heap st1 !! l = Some o' /\
  obj_attrs o' !! "callback_manager" = Some (bound_handle w cm) /\
  (forall h, bound_handle w (VRef h) = VRef h) /\
  bound_handle w VNone = Settings_callback_manager w /\
  (forall name, name <> "callback_manager" -> obj_attrs o' !! name = obj_attrs o !! name) /\
  (forall l', l' <> l -> heap st1 !! l' = heap st !! l') /\
  fst (resolve_embed_model w (VRef l) cm st1) = Return (VRef l) /\
  heap (snd (resolve_embed_model w (VRef l) cm st1)) = heap st1.
Proof.
  intros Hl Hp Hnlc o' st1.
  pose proof (provider_takes_callback_manager _ Hp) as Ha.
  assert (Hl1 : heap st1 !! l = Some o').
  { cbn [st1 heap]. apply list_lookup_insert_eq. eapply lookup_lt_Some, Hl. }
  assert (Hrun : resolve_embed_model w (VRef l) cm st = (Return (VRef l), st1)).
  { rewrite resolve_embed_model_rest by (reflexivity || discriminate).
    rewrite (run_resolve_rest_ref w _ l o) by assumption.
    reflexivity. }
  split; [exact Hrun|]. split; [exact Hl1|]. split; [apply lookup_insert_eq|].
  split; [reflexivity|]. split; [reflexivity|]. split; [|split; [|split]].
  - intros name Hn. cbn [o' obj_attrs]. apply lookup_insert_ne. congruence.
  - intros l' Hl'. cbn [st1 heap]. apply list_lookup_insert_ne. congruence.
  - rewrite resolve_embed_model_rest by (reflexivity || discriminate).
    rewrite (run_resolve_rest_ref w _ l o') by assumption.
    reflexivity.
  - rewrite resolve_embed_model_rest by (reflexivity || discriminate).
    rewrite (run_resolve_rest_ref w _ l o') by assumption.
    cbn [snd heap traced st1 o' obj_class obj_attrs].
    rewrite insert_insert_eq, list_insert_insert_eq. reflexivity.
Qed.

(** A custom provider bound to the default handle is rebound to the
    caller's handle; resolved again without a handle, it is bound to the
    default handle once more. *)
Lemma C7_provider_passes_through_witness :
  fst (resolve_embed_model w_all (VRef 2) (VRef 1) st_objs) = Return (VRef 2) /\
  heap (snd (resolve_embed_model w_all (VRef 2) (VRef 1) st_objs)) !! 2 =
  Some (Object cls_CustomEmbedding
          (<[ "callback_manager" := VRef 1 ]>
             (<[ "callback_manager" := VRef 0 ]> {[ "model_name" := VStr "mine" ]}))) /\
  Settings_callback_manager w_all = VRef 0 /\
  fst (resolve_embed_model w_all (VRef 2) VNone st_rebound) = Return (VRef 2) /\
  heap (snd (resolve_embed_model w_all (VRef 2) VNone st_rebound)) !! 2 =
  Some (Object cls_CustomEmbedding
          (<[ "callback_manager" := VRef 0 ]>
             (<[ "callback_manager" := VRef 1 ]> {[ "model_name" := VStr "mine" ]}))).
Proof.
  destruct (C7_provider_passes_through w_all 2
              (Object cls_CustomEmbedding
                 (<[ "callback_manager" := VRef 0 ]> {[ "model_name" := VStr "mine" ]}))
              (VRef 1) st_objs eq_refl eq_refl eq_refl) as (Hrun & _).
  destruct (C7_provider_passes_through w_all 2
              (Object cls_CustomEmbedding
                 (<[ "callback_manager" := VRef 1 ]> {[ "model_name" := VStr "mine" ]}))
              VNone st_rebound eq_refl eq_refl eq_refl) as (Hrun' & _).
  rewrite Hrun, Hrun'. repeat split; reflexivity.
Defined.

(** ** Strings: the local-model path *)

Lemma startswith_first_field c s f rest p :
  PyStr.split1 c s = f :: rest ->
  PyStr.startswith p s = false ->
  String.eqb f p = false.
Proof.
  intros Hs Hp. destruct (String.eqb f p) eqn:E; [|reflexivity].
  apply String.eqb_eq in E. subst f.
  rewrite (split1_prefix _ _ _ _ Hs) in Hp. discriminate.
Qed.

(** A string that is not ["default"], does not start with ["clip"] and
    whose text up to the first colon is not ["local"] is refused. *)
Lemma run_resolve_other_string w s cm st :
  String.eqb s "default" = false ->
  PyStr.startswith "clip" s = false ->
  (forall f rest, PyStr.split1 ":" s = f :: rest -> String.eqb f "local" = false) ->
  resolve_embed_model w (VStr s) cm st =
  (if importable w mod_embeddings_huggingface
   then Raise (Exc ValueError msg_not_local)
   else Raise (Exc ImportError msg_huggingface_missing),
   traced st [EImport mod_bridge_langchain; EImport mod_embeddings_huggingface]).
Proof.
  intros Hd Hc Hf.
  rewrite resolve_embed_model_rest; [|exact Hd|intros ? [= <-]; exact Hc].
  destruct (split1_cons ":" s) as (f & rest & Hs).
  destruct (importable w mod_embeddings_huggingface) eqn:Hi.
  - rewrite (resolve_rest_raise _ _ _ _ _ _ _
               (run_resolve_str_not_local w s f rest _ Hi Hs (Hf _ _ Hs))).
    rewrite traced_traced. reflexivity.
  - rewrite (resolve_rest_raise _ _ _ _ _ _ _ (run_resolve_str_missing w s _ Hi)).
    rewrite traced_traced. reflexivity.
Qed.

Lemma run_resolve_local w s rest cm st :
  importable w mod_embeddings_huggingface = true ->
  PyStr.split1 ":" s = "local" :: rest ->
  resolve_embed_model w (VStr s) cm st =
  (Return (VRef (length (heap st))),
   {| heap := heap st ++
              [Object cls_HuggingFaceEmbedding
                 (<[ "callback_manager" := bound_handle w cm ]>
                    (<[ "model_name" := match rest with [] => VNone | x :: _ => VStr x end ]>
                       {[ "cache_folder" := VStr (os_path_join (cache_dir w) "models") ]}))];
      stdout := stdout st;
      dirs := {[ os_path_join (cache_dir w) "models" ]} ∪ dirs st;
      trace := trace st ++ [EImport mod_bridge_langchain;
                            EImport mod_embeddings_huggingface;
                            EMakedirs (os_path_join (cache_dir w) "models")] |}).
Proof.
  intros Hi Hs.
  assert (Hp : PyStr.startswith "local" s = true)
    by exact (split1_prefix _ _ _ _ Hs).
  rewrite resolve_embed_model_rest.
  - rewrite (resolve_rest_after_str _ _ _ _ _ _ _ (run_resolve_str_local w s rest _ Hi Hs)).
    unfold traced. mrun. rewrite run_resolve_rest_new by (apply andb_false_r || reflexivity).
    rewrite <- app_assoc. reflexivity.
  - destruct s as [|a s]; [discriminate|]. cbn [PyStr.startswith] in Hp.
    apply andb_true_iff in Hp as [Ha _]. apply Ascii.eqb_eq in Ha as <-. reflexivity.
  - intros s' [= <-]. destruct s as [|a s]; [discriminate|]. cbn [PyStr.startswith] in Hp.
    apply andb_true_iff in Hp as [Ha _]. apply Ascii.eqb_eq in Ha as <-. reflexivity.
Qed.

(** C6.  With the huggingface package installed, ["local:<name>"] is
    split at its first colon only, so the whole of [<name>] (colons
    included) is the model name; ["local"] passes [None], which selects the
    family default.  Both construct the provider over the cache directory
    [os.path.join(get_cache_dir(), "models")], which is added to the
    directories; when it was there already, the directories stay as they
    were. *)
Theorem C6_local_model_path w cm st :
  importable w mod_embeddings_huggingface = true ->
  let cache_folder := os_path_join (cache_dir w) "models" in
  let result model_name :=
    (Return (VRef (length (heap st))),
     {| heap := heap st ++
                [Object cls_HuggingFaceEmbedding
                   (<[ "callback_manager" := bound_handle w cm ]>
                      (<[ "model_name" := model_name ]>
                         {[ "cache_folder" := VStr cache_folder ]}))];
        stdout := stdout st;
        dirs := {[ cache_folder ]} ∪ dirs st;
        trace := trace st ++ [EImport mod_bridge_langchain;
                              EImport mod_embeddings_huggingface;
                              EMakedirs cache_folder] |}) in
  (forall name, resolve_embed_model w (VStr ("local:" +:+ name)) cm st = result (VStr name)) /\
  resolve_embed_model w (VStr "local") cm st = result VNone /\
  (cache_folder ∈ dirs st -> {[ cache_folder ]} ∪ dirs st = dirs st).
Proof.
  intros Hi cache_folder result. repeat split.
  - intros name. apply (run_resolve_local w _ [name] cm st Hi).
    apply (split1_app ":" "local" name). reflexivity.
  - apply (run_resolve_local w _ [] cm st Hi). reflexivity.
  - intros Hin. apply subseteq_union_1_L, singleton_subseteq_l, Hin.
Qed.

(** A model name with a colon of its own is passed whole. *)
Lemma C6_local_model_path_witness :
  importable w_all mod_embeddings_huggingface = true /\
  os_path_join (cache_dir w_all) "models" = "/cache/models" /\
  fst (resolve_embed_model w_all (VStr "local:org/foo:v1") VNone st0) = Return (VRef 0) /\
  heap (snd (resolve_embed_model w_all (VStr "local:org/foo:v1") VNone st0)) !! 0 =
  Some (Object cls_HuggingFaceEmbedding
          (<[ "callback_manager" := VRef 0 ]>
             (<[ "model_name" := VStr "org/foo:v1" ]>
                {[ "cache_folder" := VStr "/cache/models" ]}))).
Proof.
  destruct (C6_local_model_path w_all VNone st0 eq_refl) as (Hname & _ & _).
  change (VStr "local:org/foo:v1") with (VStr ("local:" +:+ "org/foo:v1")).
  rewrite Hname. repeat split; reflexivity.
Defined.

(** ** Strings: the clip path *)

Lemma startswith_clip_not_default s :
  PyStr.startswith "clip" s = true -> String.eqb s "default" = false.
Proof.
  destruct s as [|a s]; [discriminate|]. cbn [PyStr.startswith].
  intros [Ha _]%andb_true_iff. apply Ascii.eqb_eq in Ha as <-.
  reflexivity.
Qed.

Lemma resolve_embed_model_clip w s cm st :
  PyStr.startswith "clip" s = true ->
  resolve_embed_model w (VStr s) cm st =
  (resolve_clip w s ≫= fun embed_model =>
     resolve_rest w (importable w mod_bridge_langchain) embed_model cm)
    (traced st [EImport mod_bridge_langchain]).
Proof.
  intros Hc. unfold resolve_embed_model. mrun.
  rewrite run_import_LCEmbeddings. cbn [eq_str].
  rewrite (startswith_clip_not_default _ Hc), Hc. reflexivity.
Qed.

Lemma run_resolve_clip_missing w s st :
  importable w mod_embeddings_clip = false ->
  resolve_clip w s st =
  (Raise (Exc ImportError msg_clip_missing), traced st [EImport mod_embeddings_clip]).
Proof.
  intros H. unfold resolve_clip, try_except. mrun.
  rewrite (run_import_missing _ _ _ H). reflexivity.
Qed.

(** The model name that line 93-95 computes. *)
Lemma run_resolve_clip_ok w s st m :
  importable w mod_embeddings_clip = true ->
  (if PyStr.contains ":" s then PyStr.split ":" s !! 1 else Some "ViT-B/32") = Some m ->
  resolve_clip w s st =
  (Return (VRef (length (heap st))),
   {| heap := heap st ++ [Object cls_ClipEmbedding {[ "model_name" := VStr m ]}];
      stdout := stdout st; dirs := dirs st;
      trace := trace st ++ [EImport mod_embeddings_clip] |}).
Proof.
  intros H Hm. unfold resolve_clip, try_except. mrun.
  rewrite (run_import_ok _ _ _ H). mrun.
  destruct (PyStr.contains ":" s).
  - unfold py_index. rewrite Hm. mrun. reflexivity.
  - injection Hm as <-. mrun. reflexivity.
Qed.

Lemma clip_model_name_total s :
  exists m, (if PyStr.contains ":" s then PyStr.split ":" s !! 1 else Some "ViT-B/32") = Some m.
Proof.
  destruct (PyStr.contains ":" s) eqn:E; [|eauto].
  destruct (split_contains _ _ E) as (f & g & rest & ->). eauto.
Qed.

Lemma contains_app_sep c pre post : PyStr.contains c (pre +:+ String c post) = true.
Proof.
  induction pre as [|a pre IH]; rewrite ?append_nil_l, ?append_cons_l; cbn [PyStr.contains].
  - rewrite Ascii.eqb_refl. reflexivity.
  - rewrite IH. destruct (Ascii.eqb a c); reflexivity.
Qed.

(** C9.  With the clip package installed, every string that starts with
    ["clip"] yields a new clip provider bound to the handle.  Its model
    name is ["ViT-B/32"] when the string has no colon; when the string has
    one colon it is the text after that colon; when it has more, it is
    the text between the first two colons. *)
Theorem C9_clip_model_name w s cm st :
  PyStr.startswith "clip" s = true ->
  importable w mod_embeddings_clip = true ->
  exists m,
    resolve_embed_model w (VStr s) cm st =
    (Return (VRef (length (heap st))),
     {| heap := heap st ++
                [Object cls_ClipEmbedding
                   (<[ "callback_manager" := bound_handle w cm ]>
                      {[ "model_name" := VStr m ]})];
        stdout := stdout st; dirs := dirs st;
        trace := trace st ++ [EImport mod_bridge_langchain; EImport mod_embeddings_clip] |}) /\
    (PyStr.contains ":" s = false -> m = "ViT-B/32") /\
    (forall pre name,
        s = pre +:+ ":" +:+ name ->
        PyStr.contains ":" pre = false -> PyStr.contains ":" name = false ->
        m = name) /\
    (forall pre name rest,
        s = pre +:+ ":" +:+ name +:+ ":" +:+ rest ->
        PyStr.contains ":" pre = false -> PyStr.contains ":" name = false ->
        m = name).
Proof.
  intros Hc Hi. destruct (clip_model_name_total s) as (m & Hm). exists m.
  repeat split.
  - rewrite (resolve_embed_model_clip _ _ _ _ Hc). mrun.
    rewrite (run_resolve_clip_ok w s _ m Hi Hm). unfold traced. mrun.
    rewrite run_resolve_rest_new by (apply andb_false_r || reflexivity).
    rewrite <- app_assoc. reflexivity.
  - intros E. rewrite E in Hm. congruence.
  - intros pre name -> Hpre Hname.
    change (pre +:+ ":" +:+ name) with (pre +:+ String ":" name) in Hm.
    rewrite contains_app_sep, (split_app _ _ _ Hpre), (split_no_sep _ _ Hname) in Hm.
    cbn in Hm. congruence.
  - intros pre name rest -> Hpre Hname.
    change (pre +:+ ":" +:+ name +:+ ":" +:+ rest)
      with (pre +:+ String ":" (name +:+ String ":" rest)) in Hm.
    rewrite contains_app_sep, (split_app _ _ _ Hpre), (split_app _ _ _ Hname) in Hm.
    cbn in Hm. congruence.
Qed.

(** ["clip:ViT-L/14"] asks for the model ["ViT-L/14"]. *)
Lemma C9_clip_model_name_witness :
  PyStr.startswith "clip" "clip:ViT-L/14" = true /\
  importable w_all mod_embeddings_clip = true /\
  heap (snd (resolve_embed_model w_all (VStr "clip:ViT-L/14") VNone st0)) !! 0 =
  Some (Object cls_ClipEmbedding
          (<[ "callback_manager" := VRef 0 ]> {[ "model_name" := VStr "ViT-L/14" ]})).
Proof.
  destruct (C9_clip_model_name w_all "clip:ViT-L/14" VNone st0 eq_refl eq_refl)
    as (m & Hrun & _ & Hone & _).
  rewrite Hrun, (Hone "clip" "ViT-L/14" eq_refl eq_refl eq_refl).
  repeat split; reflexivity.
Defined.

(** ** Strings that reach line 103 *)

Lemma startswith_first_char a p s :
  PyStr.startswith (String a p) s = true -> exists s', s = String a s'.
Proof.
  destruct s as [|b s]; [discriminate|]. cbn [PyStr.startswith].
  intros [Ha _]%andb_true_iff. apply Ascii.eqb_eq in Ha as <-. eauto.
Qed.

(** C1.  A string that starts with ["azure-openai"], whatever the number
    of its fields, is refused at lines 103-127: with the huggingface
    package installed by the [ValueError] of line 113 (the text up to the
    first colon is not ["local"]), without it by the [ImportError] of
    line 124.  The trace shows the two imports and nothing else: the
    variable [AZURE_OPENAI_API_KEY] is not read. *)
Theorem C1_azure_specifier_stops_at_the_local_check w s cm st :
  PyStr.startswith "azure-openai" s = true ->
  resolve_embed_model w (VStr s) cm st =
  (if importable w mod_embeddings_huggingface
   then Raise (Exc ValueError msg_not_local)
   else Raise (Exc ImportError msg_huggingface_missing),
   traced st [EImport mod_bridge_langchain; EImport mod_embeddings_huggingface]).
Proof.
  intros Ha. destruct (startswith_first_char _ _ _ Ha) as (s' & ->).
  apply run_resolve_other_string; try reflexivity.
  intros f rest Hs. eapply startswith_first_field; [exact Hs|reflexivity].
Qed.

(** The four-field string, with every package installed and no key set. *)
Lemma C1_azure_four_fields_witness :
  PyStr.startswith "azure-openai" "azure-openai:a:b:c" = true /\
  length (PyStr.split ":" "azure-openai:a:b:c") = 4 /\
  getenv_value w_all "AZURE_OPENAI_API_KEY" = VNone /\
  resolve_embed_model w_all (VStr "azure-openai:a:b:c") VNone st0 =
  (Raise (Exc ValueError msg_not_local),
   State [] [] ∅ [EImport mod_bridge_langchain; EImport mod_embeddings_huggingface]) /\
  classify (Exc ValueError msg_not_local) = InvalidSpecifier.
Proof.
  rewrite (C1_azure_specifier_stops_at_the_local_check w_all "azure-openai:a:b:c" VNone st0 eq_refl).
  repeat split; reflexivity.
Defined.

(** C3, as the specification states it, fails: an integer is neither a
    string nor a provider, and resolving it ends in an [AttributeError]
    at line 160, which is not a malformed-specifier failure; an
    unrecognised string meets the [ImportError] of line 124 when the
    huggingface package is not installed. *)
Lemma C3_counterexample_integer_and_missing_package :
  (exists e st',
      resolve_embed_model w_all (VInt 5) VNone st0 = (Raise e, st') /\
      exc_kind e = AttributeError /\ classify e <> InvalidSpecifier) /\
  (exists e st',
      resolve_embed_model w_none (VStr "foo") VNone st0 = (Raise e, st') /\
      exc_kind e = ImportError /\ classify e <> InvalidSpecifier).
Proof.
  split; eexists; eexists; (split; [reflexivity|split; [reflexivity|discriminate]]).
Qed.

(** C3, amended.  A string that is not ["default"] and does not start
    with ["local"], ["clip"] or ["azure-openai"] is refused: with the
    huggingface package installed the failure is the malformed-specifier
    [ValueError] of line 113, without it the [ImportError] of line 124. *)
Theorem C3_unrecognised_string_is_invalid_specifier w s cm st :
  String.eqb s "default" = false ->
  PyStr.startswith "local" s = false ->
  PyStr.startswith "clip" s = false ->
  PyStr.startswith "azure-openai" s = false ->
  exists e st',
    resolve_embed_model w (VStr s) cm st = (Raise e, st') /\
    (importable w mod_embeddings_huggingface = true ->
     e = Exc ValueError msg_not_local /\ classify e = InvalidSpecifier) /\
    (importable w mod_embeddings_huggingface = false ->
     e = Exc ImportError msg_huggingface_missing /\ classify e = MissingDependency).
Proof.
  intros Hd Hl Hc _.
  rewrite (run_resolve_other_string w s cm st Hd Hc).
  - destruct (importable w mod_embeddings_huggingface);
      eexists; eexists; (split; [reflexivity|]); split; intros; try discriminate;
      split; reflexivity.
  - intros f rest Hs. eapply startswith_first_field; eassumption.
Qed.

(** ["remote:foo"] with every package installed. *)
Lemma C3_unrecognised_string_witness :
  exists st',
    resolve_embed_model w_all (VStr "remote:foo") VNone st0 =
    (Raise (Exc ValueError msg_not_local), st').
Proof.
  destruct (C3_unrecognised_string_is_invalid_specifier w_all "remote:foo" VNone st0
              eq_refl eq_refl eq_refl eq_refl) as (e & st' & Hrun & Hyes & _).
  destruct (Hyes eq_refl) as [-> _]. exists st'. exact Hrun.
Defined.

(** ** Missing packages *)

Lemma run_resolve_default w st :
  resolve_default w st =
  if importable w mod_embeddings_openai then
    if importable w mod_embeddings_openai_utils then
      let st1 :=
        {| heap := heap st ++ [Object cls_OpenAIEmbedding {[ "api_key" := openai_api_key w ]}];
           stdout := stdout st; dirs := dirs st;
           trace := trace st ++ [EImport mod_embeddings_openai;
                                 EImport mod_embeddings_openai_utils;
                                 EValidateKey] |} in
      match openai_key_rejection w (openai_api_key w) with
      | None => (Return (VRef (length (heap st))), st1)
      | Some msg => (Raise (Exc ValueError (msg_openai_key msg)), st1)
      end
    else (Raise (Exc ImportError msg_openai_missing),
          traced st [EImport mod_embeddings_openai; EImport mod_embeddings_openai_utils])
  else (Raise (Exc ImportError msg_openai_missing),
        traced st [EImport mod_embeddings_openai]).
Proof.
  unfold resolve_default, try_except. mrun.
  destruct (importable w mod_embeddings_openai) eqn:H1.
  - rewrite (run_import_ok _ _ _ H1). mrun.
    destruct (importable w mod_embeddings_openai_utils) eqn:H2.
    + rewrite (run_import_ok _ _ _ H2). mrun.
      unfold OpenAIEmbedding, new_object. mrun.
      unfold getattr. mrun. rewrite lookup_last. mrun.
      rewrite lookup_singleton_eq. mrun.
      unfold validate_openai_api_key. mrun. cbn [log]. mrun.
      rewrite <- !app_assoc.
      destruct (openai_key_rejection w (openai_api_key w)); reflexivity.
    + rewrite (run_import_missing _ _ _ H2). mrun.
      unfold traced. mrun. rewrite <- app_assoc. reflexivity.
  - rewrite (run_import_missing _ _ _ H1). reflexivity.
Qed.




(** ** What every return path has in common *)

Lemma provider_in_new h c attrs :
  is_BaseEmbedding c = true -> provider_in (h ++ [Object c attrs]) (VRef (length h)).
Proof. intros Hc. exists (length h), (Object c attrs). auto using lookup_last. Qed.

Lemma resolve_str_Return_inv w em st v st1 :
  resolve_str w em st = (Return v, st1) ->
  (is_str em = false /\ v = em /\ st1 = st) \/
  (is_str em = true /\ provider_in (heap st1) v).
Proof.
  destruct em as [|s| | |]; try (intros [= <- <-]; left; auto).
  intros H. right. split; [reflexivity|].
  destruct (importable w mod_embeddings_huggingface) eqn:Hi.
  - destruct (split1_cons ":" s) as (f & rest & Hs).
    destruct (String.eqb f "local") eqn:Hf.
    + apply String.eqb_eq in Hf as ->.
      rewrite (run_resolve_str_local w s rest st Hi Hs) in H.
      injection H as <- <-. apply provider_in_new. reflexivity.
    + rewrite (run_resolve_str_not_local w s f rest st Hi Hs Hf) in H. discriminate.
  - rewrite (run_resolve_str_missing w s st Hi) in H. discriminate.
Qed.

Lemma resolve_langchain_Return_inv w lc em st v st1 :
  resolve_langchain w lc em st = (Return v, st1) ->
  (v = em /\ st1 = st /\
   forall l o, em = VRef l -> heap st !! l = Some o ->
               lc && is_LCEmbeddings (obj_class o) = false) \/
  (is_str em = false /\ provider_in (heap st1) v).
Proof.
  unfold resolve_langchain. mrun. unfold isinstance_LCEmbeddings at 1. mrun.
  destruct em as [| | | |l]; rewrite ?andb_false_r; mrun;
    try (intros [= <- <-]; left; repeat split; intros; discriminate).
  destruct (heap st !! l) as [o|] eqn:Hl; rewrite ?andb_false_r; mrun.
  - destruct (lc && is_LCEmbeddings (obj_class o)) eqn:E.
    + unfold try_except. mrun.
      destruct (importable w mod_embeddings_langchain) eqn:Hi.
      * rewrite (run_import_ok _ _ _ Hi). mrun.
        unfold LangchainEmbedding, new_object. mrun.
        intros [= <- <-]. right. split; [reflexivity|].
        apply provider_in_new. reflexivity.
      * rewrite (run_import_missing _ _ _ Hi). mrun. discriminate.
    + intros [= <- <-]. left. repeat split.
      intros l' o' [= <-] Hl'. congruence.
  - intros [= <- <-]. left. repeat split.
    intros l' o' [= <-] Hl'. congruence.
Qed.

Lemma is_str_false_provider h v : provider_in h v -> is_str v = false.
Proof. intros (l & o & -> & _). reflexivity. Qed.

Lemma resolve_azure_not_str w em st :
  is_str em = false -> resolve_azure w em st = (Return em, st).
Proof. destruct em; try discriminate; reflexivity. Qed.

(** Nothing is a string any more when line 142 is reached: the branch at
    lines 142-154 never runs. *)
Lemma azure_branch_is_dead w lc em cm st :
  resolve_rest w lc em cm st = resolve_rest_without_azure w lc em cm st.
Proof.
  unfold resolve_rest, resolve_rest_without_azure. mrun.
  destruct (resolve_str w em st) as [[v1|e1] st1] eqn:H1; [|reflexivity]. mrun.
  destruct (resolve_langchain w lc v1 st1) as [[v2|e2] st2] eqn:H2; [|reflexivity]. mrun.
  assert (Hns : is_str v2 = false).
  { destruct (resolve_langchain_Return_inv _ _ _ _ _ _ H2) as [(-> & _ & _)|[_ Hp]].
    - destruct (resolve_str_Return_inv _ _ _ _ _ H1) as [(Hs & -> & _)|[_ Hp]];
        [exact Hs|exact (is_str_false_provider _ _ Hp)].
    - exact (is_str_false_provider _ _ Hp). }
  rewrite (resolve_azure_not_str _ _ _ Hns). reflexivity.
Qed.

Lemma resolve_none_Return_inv em st v st1 :
  resolve_none em st = (Return v, st1) ->
  (em <> VNone /\ v = em /\ st1 = st) \/ (em = VNone /\ provider_in (heap st1) v).
Proof.
  destruct em; try (intros [= <- <-]; left; repeat split; discriminate).
  unfold resolve_none, print. mrun. rewrite run_MockEmbedding. mrun.
  intros [= <- <-]. right. split; [reflexivity|]. apply provider_in_new. reflexivity.
Qed.

Lemma bind_handle_Return_inv v name x st v' st' :
  (setattr v name x ≫= fun _ => mret v) st = (Return v', st') ->
  exists l o, v = VRef l /\ v' = VRef l /\ heap st !! l = Some o /\
              heap st' !! l = Some (Object (obj_class o) (<[ name := x ]> (obj_attrs o))).
Proof.
  destruct v as [| | | |l]; try discriminate.
  mrun. unfold setattr. destruct (heap st !! l) as [o|] eqn:Hl; [|discriminate].
  destruct (attribute_refusal (obj_class o)); [discriminate|].
  mrun. intros [= <- <-]. exists l, o. repeat split; [exact Hl|].
  cbn [heap]. apply list_lookup_insert_eq. eapply lookup_lt_Some, Hl.
Qed.

Lemma well_typed_provider lc st v : provider_in (heap st) v -> well_typed lc st v = true.
Proof. intros (l & o & -> & Hl & Hb). cbn [well_typed]. rewrite Hl, Hb. reflexivity. Qed.

(** Whatever lines 103-162 return is an object whose [callback_manager]
    holds the handle; it is a provider when the specifier was well typed. *)
Lemma resolve_rest_Return_inv w lc em cm st v st' :
  resolve_rest w lc em cm st = (Return v, st') ->
  exists l o, v = VRef l /\ heap st' !! l = Some o /\
    obj_attrs o !! "callback_manager" = Some (bound_handle w cm) /\
    (well_typed lc st em = true -> is_BaseEmbedding (obj_class o) = true).
Proof.
  rewrite azure_branch_is_dead. unfold resolve_rest_without_azure. intros H.
  apply bind_Return_inv in H as (v1 & st1 & H1 & H).
  apply bind_Return_inv in H as (v2 & st2 & H2 & H).
  apply bind_Return_inv in H as (v3 & st3 & H3 & H).
  apply bind_handle_Return_inv in H as (l & o & -> & -> & Hl & Hl').
  exists l, (Object (obj_class o) (<[ "callback_manager" := bound_handle w cm ]> (obj_attrs o))).
  repeat split; [exact Hl'|apply lookup_insert_eq|]. cbn [obj_class]. intros Hwt.
  (* after line 127 *)
  assert (Hwt1 : well_typed lc st1 v1 = true /\ is_str v1 = false).
  { destruct (resolve_str_Return_inv _ _ _ _ _ H1) as [(Hs & -> & ->)|[_ Hp]]; [auto|].
    split; [exact (well_typed_provider _ _ _ Hp)|exact (is_str_false_provider _ _ Hp)]. }
  destruct Hwt1 as [Hwt1 Hns1].
  (* after line 140 *)
  assert (Hp2 : v2 = VNone \/ provider_in (heap st2) v2).
  { destruct (resolve_langchain_Return_inv _ _ _ _ _ _ H2) as [(-> & -> & Hc)|[_ Hp]]; [|auto].
    destruct v1 as [| | | |l1]; try discriminate; [auto|]. right.
    cbn [well_typed] in Hwt1. destruct (heap st1 !! l1) as [o1|] eqn:Hl1; [|discriminate].
    exists l1, o1. repeat split; [exact Hl1|].
    specialize (Hc l1 o1 eq_refl Hl1). rewrite andb_comm, Hc, orb_false_r in Hwt1.
    exact Hwt1. }
  (* after line 158 *)
  assert (Hp3 : provider_in (heap st3) (VRef l)).
  { destruct (resolve_none_Return_inv _ _ _ _ H3) as [(Hn & -> & ->)|[_ Hp]]; [|exact Hp].
    destruct Hp2 as [->|Hp]; [congruence|exact Hp]. }
  destruct Hp3 as (l3 & o3 & [= <-] & Hl3 & Hb). congruence.
Qed.

(** C2.  Every call either returns one value or raises one exception,
    not both and not neither.  A returned value is an object of the final
    heap whose [callback_manager] is the caller's handle when one is
    given and [Settings.callback_manager] otherwise, on every return path;
    it is a provider whenever the specifier has its declared type. *)
Theorem C2_one_outcome_and_handle_bound w embed_model cm st :
  let r := resolve_embed_model w embed_model cm st in
  ((exists v, fst r = Return v) \/ (exists e, fst r = Raise e)) /\
  ~ ((exists v, fst r = Return v) /\ (exists e, fst r = Raise e)) /\
  (forall v, fst r = Return v ->
     exists l o, v = VRef l /\ heap (snd r) !! l = Some o /\
       obj_attrs o !! "callback_manager" = Some (bound_handle w cm) /\
       (is_EmbedType w st embed_model = true -> is_BaseEmbedding (obj_class o) = true)) /\
  (forall h, bound_handle w (VRef h) = VRef h) /\
  bound_handle w VNone = Settings_callback_manager w.
Proof.
  intros r. split; [|split; [|split; [|split; reflexivity]]].
  - destruct (fst r); eauto.
  - intros [[v Hv] [e He]]. congruence.
  - intros v Hv. subst r.
    assert (Hnew : forall c attrs h out ds tr v' st',
      resolve_rest w (importable w mod_bridge_langchain) (VRef (length h)) cm
        {| heap := h ++ [Object c attrs]; stdout := out; dirs := ds; trace := tr |} =
      (Return v', st') ->
      is_BaseEmbedding c = true ->
      exists l o, v' = VRef l /\ heap st' !! l = Some o /\
        obj_attrs o !! "callback_manager" = Some (bound_handle w cm) /\
        is_BaseEmbedding (obj_class o) = true).
    { intros c attrs h out ds tr v' st' Hr Hc.
      apply resolve_rest_Return_inv in Hr as (l & o & -> & Hl & Ha & Hb).
      exists l, o. repeat split; [exact Hl|exact Ha|]. apply Hb.
      cbn [well_typed heap]. rewrite lookup_last. cbn [obj_class]. rewrite Hc. reflexivity. }
    destruct (resolve_embed_model w embed_model cm st) as [r1 st'] eqn:Hrun.
    cbn [fst snd] in *. subst r1. revert Hrun.
    destruct (eq_str embed_model "default") eqn:Hd.
    + (* the default sentinel *)
      destruct embed_model as [|s| | |]; try discriminate.
      apply String.eqb_eq in Hd as ->.
      destruct (truthy (getenv_value w "IS_TESTING")) eqn:Ht.
      * rewrite (run_resolve_default_testing w cm st Ht). intros [= <- <-].
        eexists _, _. cbn [heap].
        repeat split; [apply lookup_last|apply lookup_insert_eq|reflexivity].
      * unfold resolve_embed_model. mrun. rewrite run_import_LCEmbeddings. mrun.
        change (eq_str (VStr "default") "default") with true. mrun.
        unfold os_getenv at 1. mrun. cbn [log]. mrun. rewrite Ht. mrun.
        rewrite run_resolve_default.
        destruct (importable w mod_embeddings_openai); [|discriminate].
        destruct (importable w mod_embeddings_openai_utils); [|discriminate].
        cbn zeta. destruct (openai_key_rejection w (openai_api_key w)); [discriminate|].
        mrun. intros Hr.
        destruct (Hnew _ _ _ _ _ _ _ _ Hr eq_refl) as (l & o & ? & ? & ? & ?). eauto 10.
    + destruct (match embed_model with VStr s => PyStr.startswith "clip" s | _ => false end)
        eqn:Hc.
      * (* a clip string *)
        destruct embed_model as [|s| | |]; try discriminate.
        rewrite (resolve_embed_model_clip _ _ _ _ Hc). mrun.
        destruct (importable w mod_embeddings_clip) eqn:Hi.
        -- destruct (clip_model_name_total s) as (m & Hm).
           rewrite (run_resolve_clip_ok w s _ m Hi Hm). mrun. intros Hr.
           destruct (Hnew _ _ _ _ _ _ _ _ Hr eq_refl) as (l & o & ? & ? & ? & ?). eauto 10.
        -- rewrite (run_resolve_clip_missing _ _ _ Hi). discriminate.
      * (* everything else *)
        rewrite resolve_embed_model_rest; [|exact Hd|intros s ->; exact Hc].
        intros Hr.
        apply resolve_rest_Return_inv in Hr as (l & o & -> & Hl & Ha & Hb).
        exists l, o. repeat split; [exact Hl|exact Ha|]. exact Hb.
Qed.

(** Embeddings disabled, with a handle supplied by the caller. *)
Lemma C2_one_outcome_witness :
  exists l o,
    fst (resolve_embed_model w_all VNone (VRef 1) st_objs) = Return (VRef l) /\
    heap (snd (resolve_embed_model w_all VNone (VRef 1) st_objs)) !! l = Some o /\
    obj_attrs o !! "callback_manager" = Some (VRef 1) /\
    is_BaseEmbedding (obj_class o) = true.
Proof.
  destruct (C2_one_outcome_and_handle_bound w_all VNone (VRef 1) st_objs)
    as (_ & _ & Hret & _).
  destruct (Hret (VRef 4) eq_refl) as (l & o & Hv & Hl & Ha & Hb).
  exists l, o. rewrite <- Hv. repeat split; [exact Hl|exact Ha|exact (Hb eq_refl)].
Defined.

(** ** Saving and loading an embedding *)

Lemma saved_char_plain a :
  saved_char a = true -> is_true (not_newline a) /\ PyStr.is_space a = false.
Proof.
  destruct a as [[] [] [] [] [] [] [] []]; vm_compute; intros H;
    first [discriminate H | split; reflexivity].
Qed.

Lemma float_char_not_comma a : float_char a = true -> Ascii.eqb a "," = false.
Proof.
  destruct a as [[] [] [] [] [] [] [] []]; vm_compute; intros H;
    first [discriminate H | reflexivity].
Qed.

Lemma all_chars_app P s t :
  all_chars P (s +:+ t) = all_chars P s && all_chars P t.
Proof.
  induction s as [|a s IH]; rewrite ?append_nil_l, ?append_cons_l; cbn [all_chars];
    [reflexivity|]. rewrite IH, andb_assoc. reflexivity.
Qed.

Lemma all_chars_impl (P Q : ascii -> bool) s :
  (forall a, P a = true -> Q a = true) -> all_chars P s = true -> all_chars Q s = true.
Proof.
  intros HPQ. induction s as [|a s IH]; cbn [all_chars]; [reflexivity|].
  intros [Ha Hs]%andb_true_iff. rewrite (HPQ _ Ha), (IH Hs). reflexivity.
Qed.

Lemma no_comma_in_float_text s :
  all_chars float_char s = true -> PyStr.contains "," s = false.
Proof.
  induction s as [|a s IH]; cbn [all_chars PyStr.contains]; [reflexivity|].
  intros [Ha Hs]%andb_true_iff. rewrite (float_char_not_comma _ Ha). exact (IH Hs).
Qed.

Lemma universal_newlines_plain s :
  all_chars not_newline s = true -> universal_newlines s = s.
Proof.
  induction s as [|a s IH]; cbn [all_chars universal_newlines]; [reflexivity|].
  intros [Ha Hs]%andb_true_iff. unfold not_newline in Ha.
  apply andb_true_iff in Ha as [_ Hcr]. apply negb_true_iff in Hcr.
  rewrite Hcr, (IH Hs). reflexivity.
Qed.

Lemma readline_aux_plain s :
  all_chars not_newline s = true -> readline_aux s = s.
Proof.
  induction s as [|a s IH]; cbn [all_chars readline_aux]; [reflexivity|].
  intros [Ha Hs]%andb_true_iff. unfold not_newline in Ha.
  apply andb_true_iff in Ha as [Hlf _]. apply negb_true_iff in Hlf.
  rewrite Hlf, (IH Hs). reflexivity.
Qed.

Lemma rstrip_plain s :
  all_chars (fun a => negb (PyStr.is_space a)) s = true -> PyStr.rstrip s = s.
Proof.
  induction s as [|a s IH]; cbn [all_chars PyStr.rstrip]; [reflexivity|].
  intros [Ha Hs]%andb_true_iff. apply negb_true_iff in Ha.
  rewrite (IH Hs), Ha. destruct s; reflexivity.
Qed.

Lemma strip_plain s :
  all_chars (fun a => negb (PyStr.is_space a)) s = true -> PyStr.strip s = s.
Proof.
  intros H. unfold PyStr.strip.
  assert (Hl : PyStr.lstrip s = s).
  { destruct s as [|a s]; [reflexivity|]. cbn [all_chars PyStr.lstrip] in *.
    apply andb_true_iff in H as [Ha _]. apply negb_true_iff in Ha. rewrite Ha. reflexivity. }
  rewrite Hl. apply rstrip_plain, H.
Qed.

(** A trailing newline does not survive [strip]. *)
Lemma rstrip_newline s : PyStr.rstrip (s +:+ nl) = PyStr.rstrip s.
Proof.
  induction s as [|a s IH]; rewrite ?append_nil_l, ?append_cons_l; [reflexivity|].
  cbn [PyStr.rstrip]. rewrite IH. reflexivity.
Qed.

Lemma strip_newline s : PyStr.strip (s +:+ nl) = PyStr.strip s.
Proof.
  unfold PyStr.strip.
  induction s as [|a s IH]; rewrite ?append_nil_l, ?append_cons_l; [reflexivity|].
  cbn [PyStr.lstrip]. destruct (PyStr.is_space a); [exact IH|].
  exact (rstrip_newline (String a s)).
Qed.

(** Splitting undoes joining when no field holds the separator. *)
Lemma split_join c l :
  l <> [] ->
  (forall x, In x l -> PyStr.contains c x = false) ->
  PyStr.split c (PyStr.join (String c EmptyString) l) = l.
Proof.
  induction l as [|x l IH]; [congruence|]. intros _ Hl.
  destruct l as [|y l].
  - cbn [PyStr.join]. apply split_no_sep, Hl. left. reflexivity.
  - change (PyStr.join (String c EmptyString) (x :: y :: l))
      with (x +:+ String c (PyStr.join (String c EmptyString) (y :: l))).
    rewrite split_app by (apply Hl; left; reflexivity).
    rewrite IH; [reflexivity|discriminate|].
    intros z Hz. apply Hl. right. exact Hz.
Qed.

Lemma all_chars_join P sep l :
  all_chars P sep = true ->
  (forall x, In x l -> all_chars P x = true) ->
  all_chars P (PyStr.join sep l) = true.
Proof.
  intros Hsep. induction l as [|x l IH]; intros Hl; [reflexivity|].
  destruct l as [|y l].
  - apply Hl. left. reflexivity.
  - change (PyStr.join sep (x :: y :: l)) with (x +:+ sep +:+ PyStr.join sep (y :: l)).
    assert (Hrest : all_chars P (PyStr.join sep (y :: l)) = true).
    { apply IH. intros z Hz. apply Hl. right. exact Hz. }
    rewrite !all_chars_app, Hsep, (Hl x (or_introl eq_refl)), Hrest. reflexivity.
Qed.

Lemma join_not_empty sep x l :
  x <> EmptyString -> PyStr.join sep (x :: l) <> EmptyString.
Proof.
  intros Hx. destruct x as [|a x]; [congruence|]. destruct l; discriminate.
Qed.

Lemma map_outcome_map {A B} (f : A -> outcome B) (g : B -> A) (l : list B) :
  (forall x, In x l -> f (g x) = Return x) ->
  map_outcome f (map g l) = Return l.
Proof.
  induction l as [|x l IH]; intros H; [reflexivity|].
  cbn [map map_outcome]. rewrite (H x (or_introl eq_refl)), IH; [reflexivity|].
  intros y Hy. apply H. right. exact Hy.
Qed.

Lemma float_eq_refl x : is_nan x = false -> float_eq x x = true.
Proof.
  unfold float_eq, SFeqb, SFcompare.
  destruct x as [[]|[]| |[] m e]; try discriminate; intros _; try reflexivity;
    rewrite Z.compare_refl, Pos.compare_cont_refl; reflexivity.
Qed.

(** The text of a saved embedding reads back as the embedding. *)
Lemma load_text_join py_str py_float (e : list spec_float) :
  e <> [] ->
  (forall x, In x e -> repr_contract py_str py_float x) ->
  load_text py_float (PyStr.join "," (map py_str e)) = Return e.
Proof.
  intros Hne Hc. set (text := PyStr.join "," (map py_str e)).
  assert (Hchars : all_chars saved_char text = true).
  { apply all_chars_join; [reflexivity|].
    intros s (x & <- & Hx)%in_map_iff. destruct (Hc x Hx) as (_ & Hf & _).
    revert Hf. apply all_chars_impl. intros a Ha. unfold saved_char. rewrite Ha. reflexivity. }
  assert (Hnonempty : text <> EmptyString).
  { destruct e as [|x e]; [congruence|]. apply join_not_empty.
    destruct (Hc x (or_introl eq_refl)) as (Hx & _). exact Hx. }
  unfold load_text.
  rewrite universal_newlines_plain
    by (revert Hchars; apply all_chars_impl; intros a Ha; apply saved_char_plain, Ha).
  unfold first_line. destruct text as [|a text'] eqn:Etext; [congruence|].
  rewrite readline_aux_plain
    by (revert Hchars; apply all_chars_impl; intros b Hb; apply saved_char_plain, Hb).
  rewrite strip_plain
    by (revert Hchars; apply all_chars_impl; intros b Hb;
        destruct (saved_char_plain _ Hb) as [_ ->]; reflexivity).
  rewrite <- Etext. unfold text. rewrite split_join.
  - apply map_outcome_map. intros x Hx. destruct (Hc x Hx) as (_ & _ & Hr). exact Hr.
  - destruct e; [congruence|discriminate].
  - intros s (x & <- & Hx)%in_map_iff. destruct (Hc x Hx) as (_ & Hf & _).
    apply no_comma_in_float_text, Hf.
Qed.

Lemma universal_newlines_first_line first t :
  all_chars not_newline first = true ->
  universal_newlines (first +:+ nl +:+ t) = first +:+ nl +:+ universal_newlines t.
Proof.
  induction first as [|a s IH]; rewrite ?append_nil_l, ?append_cons_l; [reflexivity|].
  cbn [all_chars universal_newlines]. intros [Ha Hs]%andb_true_iff.
  unfold not_newline in Ha. apply andb_true_iff in Ha as [_ Hcr].
  apply negb_true_iff in Hcr. rewrite Hcr, (IH Hs). reflexivity.
Qed.

Lemma readline_aux_first_line first t :
  all_chars not_newline first = true ->
  readline_aux (first +:+ nl +:+ t) = first +:+ nl.
Proof.
  induction first as [|a s IH]; rewrite ?append_nil_l, ?append_cons_l; [reflexivity|].
  cbn [all_chars readline_aux]. intros [Ha Hs]%andb_true_iff.
  unfold not_newline in Ha. apply andb_true_iff in Ha as [Hlf _].
  apply negb_true_iff in Hlf. rewrite Hlf, (IH Hs). reflexivity.
Qed.

(** Only the first line of a text is read. *)
Lemma load_text_first_line py_float first rest :
  all_chars not_newline first = true ->
  load_text py_float (first +:+ nl +:+ rest) =
  map_outcome py_float (PyStr.split "," (PyStr.strip first)).
Proof.
  intros Hf. unfold load_text.
  rewrite (universal_newlines_first_line _ _ Hf). unfold first_line.
  destruct (first +:+ nl +:+ universal_newlines rest) as [|a t] eqn:E.
  - destruct first; discriminate.
  - rewrite <- E, (readline_aux_first_line _ _ Hf), strip_newline. reflexivity.
Qed.

(** C10.  For a non-empty list [e] of floats none of which is a NaN, at
    each of which [str] gives a text of float characters that [float]
    reads back: [save_embedding(e, p)] writes the file [p] and leaves the
    other files alone, and [load_embedding(p)] then returns [e] itself,
    which is also equal to [e] under Python's [==].  And whatever follows
    the first line of a file, [load_embedding] returns what the first
    line holds. *)
Theorem C10_save_then_load_round_trip
    (py_str : spec_float -> string) (py_float : string -> outcome spec_float)
    (e : list spec_float) (p : string) (fs : file_store) :
  e <> [] ->
  (forall x, In x e -> is_nan x = false) ->
  (forall x, In x e -> repr_contract py_str py_float x) ->
  let fs' := snd (save_embedding py_str e p fs) in
  fst (save_embedding py_str e p fs) = Return tt /\
  (forall q, q <> p -> fs' !! q = fs !! q) /\
  load_embedding py_float p fs' = Return e /\
  Forall2 (fun a b => float_eq a b = true) e e /\
  (forall first rest q (gs : file_store),
      all_chars not_newline first = true ->
      gs !! q = Some (first +:+ nl +:+ rest) ->
      load_embedding py_float q gs =
      map_outcome py_float (PyStr.split "," (PyStr.strip first))).
Proof.
  intros Hne Hnan Hc fs'. repeat split.
  - intros q Hq. unfold fs', save_embedding. cbn [snd].
    apply lookup_insert_ne. congruence.
  - unfold load_embedding, fs', save_embedding. cbn [snd].
    rewrite lookup_insert_eq. apply load_text_join; assumption.
  - clear Hne Hc fs'. induction e as [|x e IH]; constructor.
    + apply float_eq_refl, Hnan. left. reflexivity.
    + apply IH. intros y Hy. apply Hnan. right. exact Hy.
  - intros first rest q gs Hf Hq. unfold load_embedding. rewrite Hq.
    apply load_text_first_line, Hf.
Qed.

(** Saving [[1.5, -2.0]] writes ["1.5,-2.0"], which loads back; a second
    line is not read. *)
Lemma C10_save_then_load_witness :
  load_embedding sample_float "e.txt"
    (snd (save_embedding sample_str [f_1_5; f_neg_2] "e.txt" ∅)) =
  Return [f_1_5; f_neg_2] /\
  snd (save_embedding sample_str [f_1_5; f_neg_2] "e.txt" ∅) !! "e.txt" = Some "1.5,-2.0" /\
  load_embedding sample_float "two.txt"
    {[ "two.txt" := "1.5,-2.0" +:+ nl +:+ "-2.0" ]} = Return [f_1_5; f_neg_2].
Proof.
  assert (Hnan : forall x, In x [f_1_5; f_neg_2] -> is_nan x = false).
  { intros x [<-|[<-|[]]]; reflexivity. }
  assert (Hc : forall x, In x [f_1_5; f_neg_2] -> repr_contract sample_str sample_float x).
  { intros x [<-|[<-|[]]]; (split; [discriminate|split; reflexivity]). }
  destruct (C10_save_then_load_round_trip sample_str sample_float [f_1_5; f_neg_2]
              "e.txt" ∅ ltac:(discriminate) Hnan Hc) as (_ & _ & Hload & _ & Hfirst).
  split; [exact Hload|]. split; [reflexivity|].
  rewrite (Hfirst "1.5,-2.0" "-2.0" "two.txt"
             {[ "two.txt" := "1.5,-2.0" +:+ nl +:+ "-2.0" ]} eq_refl
             (lookup_singleton_eq _ _)).
  reflexivity.
Defined.

(** ** The footprint of a call *)

Lemma env_grows_refl p w st : env_grows p w st st.
Proof.
  split; [|split; [|split; [|split]]].
  - exists (@nil string). rewrite app_nil_r. auto.
  - reflexivity.
  - apply union_subseteq_r.
  - reflexivity.
  - exists (@nil event). rewrite app_nil_r. auto.
Qed.

Lemma env_grows_trans p w st1 st2 st3 :
  env_grows p w st1 st2 -> env_grows p w st2 st3 -> env_grows p w st1 st3.
Proof.
  intros ((o1 & Ho1 & Fo1 & Po1) & Hd1 & Hd1' & Pd1 & (e1 & He1 & Fe1 & Me1))
         ((o2 & Ho2 & Fo2 & Po2) & Hd2 & Hd2' & Pd2 & (e2 & He2 & Fe2 & Me2)).
  split; [|split; [|split; [|split]]].
  - exists (o1 ++ o2). rewrite Ho2, Ho1, <- app_assoc. split; [reflexivity|]. split.
    + apply Forall_app; auto.
    + intros Hp. rewrite (Po1 Hp), (Po2 Hp). reflexivity.
  - etrans; eassumption.
  - intros x Hx. apply Hd2', elem_of_union in Hx as [Hx|Hx].
    + apply elem_of_union_l, Hx.
    + apply Hd1', Hx.
  - intros Hp. rewrite (Pd2 Hp), (Pd1 Hp). reflexivity.
  - exists (e1 ++ e2). rewrite He2, He1, <- app_assoc. split; [reflexivity|]. split.
    + apply Forall_app; auto.
    + intros Hp. apply Forall_app; auto.
Qed.

Lemma grows_refl p w st : grows p w st st.
Proof.
  split; [exists (@nil object); rewrite app_nil_r; reflexivity|apply env_grows_refl].
Qed.

Lemma grows_trans p w st1 st2 st3 :
  grows p w st1 st2 -> grows p w st2 st3 -> grows p w st1 st3.
Proof.
  intros [(x1 & H1) E1] [(x2 & H2) E2]. split.
  - exists (x1 ++ x2). rewrite H2, H1, <- app_assoc. reflexivity.
  - eapply env_grows_trans; eassumption.
Qed.

Lemma monotone_ret {A} p w (a : A) : monotone p w (mret a : M A).
Proof. intros st. apply grows_refl. Qed.

Lemma monotone_raise {A} p w k msg : monotone p w (raise k msg : M A).
Proof. intros st. apply grows_refl. Qed.

Lemma monotone_bind {A B} p w (m : M A) (f : A -> M B) :
  monotone p w m -> (forall a, monotone p w (f a)) -> monotone p w (m ≫= f).
Proof.
  intros Hm Hf st. rewrite run_bind. specialize (Hm st).
  destruct (m st) as [[a|e] st1]; cbn [snd] in *; [|exact Hm].
  eapply grows_trans; [exact Hm|apply Hf].
Qed.

Lemma monotone_try {A} p w (body : M A) handler :
  monotone p w body ->
  (forall e h, handler e = Some h -> monotone p w h) ->
  monotone p w (try_except body handler).
Proof.
  intros Hb Hh st. unfold try_except. specialize (Hb st).
  destruct (body st) as [[a|e] st1]; cbn [snd] in *; [exact Hb|].
  destruct (handler e) as [h|] eqn:E; [|exact Hb].
  eapply grows_trans; [exact Hb|apply (Hh _ _ E)].
Qed.

Lemma monotone_on_ImportError {A} p w msg e (h : M A) :
  on_ImportError msg e = Some h -> monotone p w h.
Proof.
  unfold on_ImportError. destruct (exc_kind e); intros [= <-]. apply monotone_raise.
Qed.

Lemma monotone_log p w e :
  azure_event e = false -> makedirs_event e = false -> monotone p w (log e).
Proof.
  intros He Hm st. split; [|split; [|split; [|split; [|split]]]]; cbn.
  - exists (@nil object). rewrite app_nil_r. reflexivity.
  - exists (@nil string). rewrite app_nil_r. auto.
  - reflexivity.
  - apply union_subseteq_r.
  - reflexivity.
  - exists [e]. auto.
Qed.

Lemma monotone_import p w m :
  m <> mod_legacy_azure_openai -> monotone p w (import_module w m).
Proof.
  intros Hm. unfold import_module. apply monotone_bind.
  - apply monotone_log; [destruct m; first [reflexivity | congruence]|reflexivity].
  - intros _. destruct (importable w m); [apply monotone_ret|apply monotone_raise].
Qed.

Lemma monotone_getenv p w name :
  String.eqb name "AZURE_OPENAI_API_KEY" = false -> monotone p w (os_getenv w name).
Proof.
  intros Hn. unfold os_getenv. apply monotone_bind.
  - apply monotone_log; [exact Hn|reflexivity].
  - intros _. apply monotone_ret.
Qed.

Lemma monotone_new_object p w c attrs : monotone p w (new_object c attrs).
Proof.
  intros st. split; [eexists; reflexivity|].
  apply (env_grows_refl p w st).
Qed.

Lemma monotone_getattr p w v name : monotone p w (getattr v name).
Proof.
  intros st. unfold getattr. destruct v; try apply grows_refl.
  destruct (heap st !! l); [|apply grows_refl].
  destruct (obj_attrs o !! name); apply grows_refl.
Qed.

Lemma monotone_py_index p w l i : monotone p w (py_index l i).
Proof. unfold py_index. destruct (l !! i); [apply monotone_ret|apply monotone_raise]. Qed.

Lemma monotone_print_disabled p w :
  may_print p = true -> monotone p w (print msg_disabled).
Proof.
  intros Hp st. split; [|split; [|split; [|split; [|split]]]]; cbn.
  - exists (@nil object). rewrite app_nil_r. reflexivity.
  - exists [msg_disabled]. split; [reflexivity|]. split; [auto|congruence].
  - reflexivity.
  - apply union_subseteq_r.
  - reflexivity.
  - exists [EPrint msg_disabled]. auto.
Qed.

Lemma monotone_makedirs_cache p w :
  may_mkdir p = true ->
  monotone p w (os_makedirs_exist_ok (os_path_join (cache_dir w) "models")).
Proof.
  intros Hp st. split; [|split; [|split; [|split; [|split]]]];
    cbn [snd os_makedirs_exist_ok heap stdout dirs trace].
  - exists (@nil object). rewrite app_nil_r. reflexivity.
  - exists (@nil string). rewrite app_nil_r. auto.
  - apply union_subseteq_r.
  - reflexivity.
  - congruence.
  - exists [EMakedirs (os_path_join (cache_dir w) "models")].
    split; [reflexivity|]. split; [auto|congruence].
Qed.

Lemma monotone_import_LCEmbeddings p w : monotone p w (import_LCEmbeddings w).
Proof.
  unfold import_LCEmbeddings. apply monotone_try.
  - apply monotone_bind; [apply monotone_import; discriminate|intros _; apply monotone_ret].
  - intros e h. destruct (exc_kind e); intros [= <-]. apply monotone_ret.
Qed.

Lemma monotone_resolve_default p w : monotone p w (resolve_default w).
Proof.
  unfold resolve_default. apply monotone_try.
  - apply monotone_bind; [apply monotone_import; discriminate|intros _].
    apply monotone_bind; [apply monotone_import; discriminate|intros _].
    apply monotone_bind; [apply monotone_new_object|intros v].
    apply monotone_bind; [apply monotone_getattr|intros k].
    apply monotone_bind; [|intros _; apply monotone_ret].
    unfold validate_openai_api_key.
    apply monotone_bind; [apply monotone_log; reflexivity|intros _].
    destruct (openai_key_rejection w k); [apply monotone_raise|apply monotone_ret].
  - intros e h. destruct (exc_kind e); intros [= <-]; apply monotone_raise.
Qed.

Lemma monotone_resolve_clip p w s : monotone p w (resolve_clip w s).
Proof.
  unfold resolve_clip. apply monotone_try; [|apply monotone_on_ImportError].
  apply monotone_bind; [apply monotone_import; discriminate|intros _].
  apply monotone_bind; [|intros m; apply monotone_new_object].
  destruct (PyStr.contains ":" s); [apply monotone_py_index|apply monotone_ret].
Qed.

Lemma monotone_resolve_str p w em :
  (is_str em = true -> may_mkdir p = true) -> monotone p w (resolve_str w em).
Proof.
  intros Hp. unfold resolve_str. destruct em; try apply monotone_ret.
  apply monotone_try; [|apply monotone_on_ImportError].
  apply monotone_bind; [apply monotone_import; discriminate|intros _].
  apply monotone_bind; [apply monotone_py_index|intros is_local].
  apply monotone_bind.
  - destruct (Nat.ltb 1 (length (PyStr.split1 ":" s))); [|apply monotone_ret].
    apply monotone_bind; [apply monotone_py_index|intros x; apply monotone_ret].
  - intros model_name. destruct (negb (String.eqb is_local "local")); [apply monotone_raise|].
    unfold get_cache_dir. intros st. rewrite run_bind, run_ret. cbn beta iota.
    revert st. apply (monotone_bind p w _ _ (monotone_makedirs_cache p w (Hp eq_refl))).
    intros _. apply monotone_new_object.
Qed.

Lemma monotone_resolve_langchain p w lc em : monotone p w (resolve_langchain w lc em).
Proof.
  unfold resolve_langchain. apply monotone_bind.
  - intros st. apply grows_refl.
  - intros is_lc. destruct (lc && is_lc); [|apply monotone_ret].
    apply monotone_try; [|apply monotone_on_ImportError].
    apply monotone_bind; [apply monotone_import; discriminate|intros _].
    apply monotone_new_object.
Qed.

Lemma monotone_resolve_none p w em :
  (em = VNone -> may_print p = true) -> monotone p w (resolve_none em).
Proof.
  intros Hp. unfold resolve_none. destruct em; try apply monotone_ret.
  apply monotone_bind; [apply monotone_print_disabled, Hp; reflexivity|].
  intros _. apply monotone_new_object.
Qed.

Lemma grows_lookup p w st st1 l o :
  grows p w st st1 -> heap st !! l = Some o -> heap st1 !! l = Some o.
Proof. intros [(ext & ->) _] Hl. apply lookup_app_l_Some, Hl. Qed.

Lemma grows_length p w st st1 : grows p w st st1 -> length (heap st) <= length (heap st1).
Proof. intros [(ext & ->) _]. rewrite length_app. lia. Qed.

(** A failure after monotone steps has modified nothing. *)
Lemma footprint_Raise p w st e st1 : grows p w st st1 -> footprint p w st (Raise e) st1.
Proof.
  intros Hg. split; [apply Hg|]. split; [eapply grows_length, Hg|]. split.
  - intros l o Hl _. eapply grows_lookup; eassumption.
  - intros l o _ [=].
Qed.

(** Monotone steps followed by the assignment of line 160. *)
Lemma footprint_finish p w (pre : M value) x :
  monotone p w pre ->
  bounded_footprint p w
    (pre ≫= fun v => setattr v "callback_manager" x ≫= fun _ => mret v).
Proof.
  intros Hm st. specialize (Hm st). rewrite run_bind.
  destruct (pre st) as [[v|e] st1]; cbn [fst snd] in *; [|apply footprint_Raise, Hm].
  rewrite run_bind.
  destruct v as [| | | |l]; try (apply footprint_Raise, Hm).
  unfold setattr. destruct (heap st1 !! l) as [o1|] eqn:Hl1; [|apply footprint_Raise, Hm].
  destruct (attribute_refusal (obj_class o1)); [apply footprint_Raise, Hm|].
  rewrite run_ret. cbn [fst snd].
  split; [apply Hm|]. split; [|split].
  - cbn [heap]. rewrite length_insert. eapply grows_length, Hm.
  - intros l0 o Hl0 Hne. cbn [heap]. rewrite list_lookup_insert_ne by congruence.
    eapply grows_lookup; eassumption.
  - intros l0 o Hl0 Hr. injection Hr as Hr. subst l0.
    pose proof (grows_lookup _ _ _ _ _ _ Hm Hl0) as Hl0'.
    assert (Ho : Some o1 = Some o) by (rewrite <- Hl1; exact Hl0').
    injection Ho as ->.
    eexists. split; [|split].
    + cbn [heap]. apply list_lookup_insert_eq. eapply lookup_lt_Some, Hl1.
    + reflexivity.
    + intros name Hn. cbn [obj_attrs]. apply lookup_insert_ne. congruence.
Qed.

(** Monotone steps first; what they return satisfies [P]. *)
Lemma footprint_bind {A} p w (m : M A) (f : A -> M value) (P : A -> Prop) :
  monotone p w m ->
  (forall st a st1, m st = (Return a, st1) -> P a) ->
  (forall a, P a -> bounded_footprint p w (f a)) ->
  bounded_footprint p w (m ≫= f).
Proof.
  intros Hm HP Hf st. specialize (Hm st). rewrite run_bind.
  destruct (m st) as [[a|e] st1] eqn:E; cbn [fst snd] in *; [|apply footprint_Raise, Hm].
  destruct (Hf a (HP _ _ _ E) st1) as (He & Hlen & Hother & Hsame).
  split; [eapply env_grows_trans; [apply Hm|exact He]|]. split; [|split].
  - etrans; [eapply grows_length, Hm|exact Hlen].
  - intros l o Hl Hne. apply Hother; [|exact Hne]. eapply grows_lookup; eassumption.
  - intros l o Hl Hr. apply Hsame; [|exact Hr]. eapply grows_lookup; eassumption.
Qed.

Lemma footprint_resolve_rest p w lc em cm :
  (is_str em = true -> may_mkdir p = true) ->
  (em = VNone -> may_print p = true) ->
  bounded_footprint p w (resolve_rest w lc em cm).
Proof.
  intros Hdir Hout st. rewrite azure_branch_is_dead. revert st.
  unfold resolve_rest_without_azure.
  apply (footprint_bind p w _ _ (fun v => v = VNone -> may_print p = true));
    [apply monotone_resolve_str, Hdir| |intros v1 H1].
  { intros st v st1 Hr ->.
    destruct (resolve_str_Return_inv _ _ _ _ _ Hr) as [(_ & <- & _)|[_ (l & o & [=] & _)]].
    apply Hout. reflexivity. }
  apply (footprint_bind p w _ _ (fun v => v = VNone -> may_print p = true));
    [apply monotone_resolve_langchain| |intros v2 H2].
  { intros st v st1 Hr ->.
    destruct (resolve_langchain_Return_inv _ _ _ _ _ _ Hr)
      as [(<- & _)|[_ (l & o & [=] & _)]].
    apply H1. reflexivity. }
  apply footprint_finish, monotone_resolve_none, H2.
Qed.

Lemma resolve_default_Return_inv w st v st1 :
  resolve_default w st = (Return v, st1) -> exists l, v = VRef l.
Proof.
  rewrite run_resolve_default.
  destruct (importable w mod_embeddings_openai); [|discriminate].
  destruct (importable w mod_embeddings_openai_utils); [|discriminate].
  cbn zeta. destruct (openai_key_rejection w (openai_api_key w)); [discriminate|].
  intros [= <- _]. eauto.
Qed.

Lemma resolve_clip_Return_inv w s st v st1 :
  resolve_clip w s st = (Return v, st1) -> exists l, v = VRef l.
Proof.
  destruct (importable w mod_embeddings_clip) eqn:Hi.
  - destruct (clip_model_name_total s) as (m & Hm).
    rewrite (run_resolve_clip_ok w s st m Hi Hm). intros [= <- _]. eauto.
  - rewrite (run_resolve_clip_missing w s st Hi). discriminate.
Qed.

(** Every call of [resolve_embed_model] stays within the permissions
    that its specifier needs. *)
Lemma footprint_resolve_embed_model w em cm :
  bounded_footprint (perms_of em) w (resolve_embed_model w em cm).
Proof.
  unfold resolve_embed_model.
  apply (footprint_bind _ w _ _ (fun _ => True));
    [apply monotone_import_LCEmbeddings|auto|intros lc _].
  destruct (eq_str em "default") eqn:Hd.
  - apply (footprint_bind _ w _ _ (fun _ => True));
      [apply monotone_getenv; reflexivity|auto|intros t _].
    destruct (truthy t).
    + apply footprint_finish. unfold MockEmbedding. apply monotone_new_object.
    + apply (footprint_bind _ w _ _ (fun v => exists l, v = VRef l));
        [apply monotone_resolve_default|apply resolve_default_Return_inv|].
      intros v (l & ->). apply footprint_resolve_rest; discriminate.
  - destruct em as [|s| | |]; try (apply footprint_resolve_rest; (discriminate || reflexivity)).
    cbn [eq_str] in Hd.
    destruct (PyStr.startswith "clip" s) eqn:Hc.
    + apply (footprint_bind _ w _ _ (fun v => exists l, v = VRef l));
        [apply monotone_resolve_clip|apply resolve_clip_Return_inv|].
      intros v (l & ->). apply footprint_resolve_rest; discriminate.
    + apply footprint_resolve_rest; [|discriminate].
      intros _. cbn [perms_of may_mkdir reaches_local]. rewrite Hd, Hc. reflexivity.
Qed.

(** X1.  Objects that exist before a call survive it: one that is not the
    returned value is exactly as it was, whether the call returns or
    raises; one that is returned keeps its class and every attribute
    other than [callback_manager]. *)
Theorem resolve_leaves_other_objects_alone w embed_model cm st l o :
  heap st !! l = Some o ->
  let r := resolve_embed_model w embed_model cm st in
  (fst r <> Return (VRef l) -> heap (snd r) !! l = Some o) /\
  (fst r = Return (VRef l) ->
   exists o', heap (snd r) !! l = Some o' /\ obj_class o' = obj_class o /\
     forall name, name <> "callback_manager" -> obj_attrs o' !! name = obj_attrs o !! name).
Proof.
  intros Hl r.
  destruct (footprint_resolve_embed_model w embed_model cm st) as (_ & _ & Hother & Hsame).
  split; intros Hr; [exact (Hother l o Hl Hr)|exact (Hsame l o Hl Hr)].
Qed.

(** A failing call (no package installed) leaves the provider of the heap untouched. *)
Lemma resolve_leaves_other_objects_alone_witness :
  heap (snd (resolve_embed_model w_none (VStr "local") VNone st_objs)) !! 2 =
  Some (Object cls_CustomEmbedding
          (<[ "callback_manager" := VRef 0 ]> {[ "model_name" := VStr "mine" ]})).
Proof.
  destruct (resolve_leaves_other_objects_alone w_none (VStr "local") VNone st_objs 2
              (Object cls_CustomEmbedding
                 (<[ "callback_manager" := VRef 0 ]> {[ "model_name" := VStr "mine" ]}))
              eq_refl) as [Hother _].
  apply Hother. discriminate.
Defined.

(** X2.  Nothing is printed unless the specifier is [None]. *)
Theorem resolve_prints_only_when_disabled w embed_model cm st :
  embed_model <> VNone ->
  stdout (snd (resolve_embed_model w embed_model cm st)) = stdout st.
Proof.
  intros Hn.
  destruct (footprint_resolve_embed_model w embed_model cm st)
    as (((out & Hout & _ & Hquiet) & _) & _).
  rewrite Hout, Hquiet, app_nil_r; [reflexivity|].
  destruct embed_model; (reflexivity || congruence).
Qed.

Lemma resolve_prints_only_when_disabled_witness :
  stdout (snd (resolve_embed_model w_all (VStr "local") VNone st0)) = [].
Proof.
  exact (resolve_prints_only_when_disabled w_all (VStr "local") VNone st0
           ltac:(discriminate)).
Defined.

(** X3.  [os.makedirs] is called, and a directory made, only on the
    local-model path: for a specifier that is not a string, for
    ["default"] and for a string that starts with ["clip"], no call of
    [os.makedirs] occurs and the directories are as they were. *)
Theorem resolve_makes_no_directory_off_the_local_path w embed_model cm st :
  reaches_local embed_model = false ->
  let st' := snd (resolve_embed_model w embed_model cm st) in
  dirs st' = dirs st /\
  exists es, trace st' = trace st ++ es /\ forall path, EMakedirs path ∉ es.
Proof.
  intros Hoff st'.
  destruct (footprint_resolve_embed_model w embed_model cm st)
    as ((_ & _ & _ & Hkeep & (es & Hes & _ & Hno)) & _).
  fold st' in Hkeep, Hes. split; [exact (Hkeep Hoff)|].
  exists es. split; [exact Hes|].
  specialize (Hno Hoff). rewrite Forall_forall in Hno.
  intros path Hin. apply Hno in Hin. discriminate.
Qed.

(** ["clip"], with every package installed and no directory yet. *)
Lemma resolve_makes_no_directory_witness :
  dirs (snd (resolve_embed_model w_all (VStr "clip") VNone st0)) = ∅.
Proof.
  destruct (resolve_makes_no_directory_off_the_local_path w_all (VStr "clip") VNone st0
              eq_refl) as [Hkeep _].
  exact Hkeep.
Defined.

(** X4.  No call reads [AZURE_OPENAI_API_KEY], imports the legacy Azure
    module or makes the Azure embedding request: lines 142-154, and with
    them [get_azure_openai_embedding], are never reached. *)
Theorem resolve_never_reaches_azure w embed_model cm st :
  exists es,
    trace (snd (resolve_embed_model w embed_model cm st)) = trace st ++ es /\
    (EGetenv "AZURE_OPENAI_API_KEY" ∉ es) /\
    (EImport mod_legacy_azure_openai ∉ es) /\
    (forall text, EAzureEmbed text ∉ es).
Proof.
  destruct (footprint_resolve_embed_model w embed_model cm st)
    as ((_ & _ & _ & _ & (es & Hes & Hno & _)) & _).
  exists es. split; [exact Hes|].
  rewrite Forall_forall in Hno.
  repeat split; [intros Hin| intros Hin | intros text Hin];
    apply Hno in Hin; discriminate.
Qed.

(** ** The hosted default provider *)

Lemma run_resolve_default_hosted w cm st :
  truthy (getenv_value w "IS_TESTING") = false ->
  resolve_embed_model w (VStr "default") cm st =
  (resolve_default w ≫= fun embed_model =>
     resolve_rest w (importable w mod_bridge_langchain) embed_model cm)
    (traced st [EImport mod_bridge_langchain; EGetenv "IS_TESTING"]).
Proof.
  intros Ht. unfold resolve_embed_model. mrun. rewrite run_import_LCEmbeddings. mrun.
  change (eq_str (VStr "default") "default") with true. mrun.
  unfold os_getenv at 1. mrun. cbn [log]. mrun. rewrite Ht.
  unfold traced. mrun. rewrite <- app_assoc. reflexivity.
Qed.

(** X5.  Outside test mode, with the openai package installed and the
    key accepted, ["default"] yields a new hosted provider bound to the
    handle; the key is validated once, and nothing is printed and no
    directory is made. *)
Theorem default_builds_the_hosted_provider w cm st :
  truthy (getenv_value w "IS_TESTING") = false ->
  importable w mod_embeddings_openai = true ->
  importable w mod_embeddings_openai_utils = true ->
  openai_key_rejection w (openai_api_key w) = None ->
  resolve_embed_model w (VStr "default") cm st =
  (Return (VRef (length (heap st))),
   {| heap := heap st ++
              [Object cls_OpenAIEmbedding
                 (<[ "callback_manager" := bound_handle w cm ]>
                    {[ "api_key" := openai_api_key w ]})];
      stdout := stdout st;
      dirs := dirs st;
      trace := trace st ++ [EImport mod_bridge_langchain; EGetenv "IS_TESTING";
                            EImport mod_embeddings_openai;
                            EImport mod_embeddings_openai_utils;
                            EValidateKey] |}).
Proof.
  intros Ht H1 H2 Hk. rewrite (run_resolve_default_hosted _ _ _ Ht). mrun.
  rewrite run_resolve_default, H1, H2. cbn zeta. rewrite Hk. unfold traced. mrun.
  rewrite run_resolve_rest_new by (apply andb_false_r || reflexivity).
  rewrite <- app_assoc. reflexivity.
Qed.

Lemma default_builds_the_hosted_provider_witness :
  fst (resolve_embed_model w_all (VStr "default") (VRef 1) st_objs) = Return (VRef 4) /\
  heap (snd (resolve_embed_model w_all (VStr "default") (VRef 1) st_objs)) !! 4 =
  Some (Object cls_OpenAIEmbedding
          (<[ "callback_manager" := VRef 1 ]> {[ "api_key" := VStr "sk" ]})).
Proof.
  rewrite (default_builds_the_hosted_provider w_all (VRef 1) st_objs
             eq_refl eq_refl eq_refl eq_refl).
  split; reflexivity.
Defined.

Lemma startswith_append sub rest : PyStr.startswith sub (sub +:+ rest) = true.
Proof.
  induction sub as [|a sub IH]; [reflexivity|].
  rewrite append_cons_l. cbn [PyStr.startswith]. rewrite Ascii.eqb_refl. exact IH.
Qed.

Lemma startswith_append_l sub a b :
  PyStr.startswith sub a = true -> PyStr.startswith sub (a +:+ b) = true.
Proof.
  revert a. induction sub as [|c sub IH]; intros a H; [reflexivity|].
  destruct a as [|d a]; [discriminate|]. rewrite append_cons_l.
  cbn [PyStr.startswith] in *. apply andb_true_iff in H as [-> H]. exact (IH _ H).
Qed.

Lemma mentions_unfold msg sub :
  mentions msg sub =
  PyStr.startswith sub msg ||
  match msg with EmptyString => false | String _ msg' => mentions msg' sub end.
Proof. destruct msg; reflexivity. Qed.

Lemma mentions_append_l a b sub : mentions a sub = true -> mentions (a +:+ b) sub = true.
Proof.
  induction a as [|c a IH]; rewrite mentions_unfold; intros H.
  - rewrite orb_false_r in H. destruct sub; [|discriminate]. destruct b; reflexivity.
  - rewrite append_cons_l, mentions_unfold.
    apply orb_true_iff in H as [H|H].
    + rewrite <- append_cons_l, (startswith_append_l _ _ _ H). reflexivity.
    + rewrite (IH H). apply orb_true_r.
Qed.

Lemma mentions_append_r a b sub : mentions b sub = true -> mentions (a +:+ b) sub = true.
Proof.
  intros H. induction a as [|c a IH]; [exact H|].
  rewrite append_cons_l, mentions_unfold, IH. apply orb_true_r.
Qed.

Lemma mentions_self sub rest : mentions (sub +:+ rest) sub = true.
Proof. rewrite mentions_unfold, startswith_append. reflexivity. Qed.

(** X6.  Outside test mode, with the openai package installed, a key
    that the validator rejects turns into a [ValueError] (a credential
    failure) whose message quotes the validator's own text, names
    [OPENAI_API_KEY] and suggests [embed_model='local']. *)
Theorem default_reports_a_rejected_key w cm st original :
  truthy (getenv_value w "IS_TESTING") = false ->
  importable w mod_embeddings_openai = true ->
  importable w mod_embeddings_openai_utils = true ->
  openai_key_rejection w (openai_api_key w) = Some original ->
  fst (resolve_embed_model w (VStr "default") cm st) =
    Raise (Exc ValueError (msg_openai_key original)) /\
  classify (Exc ValueError (msg_openai_key original)) = CredentialError /\
  mentions (msg_openai_key original) original = true /\
  mentions (msg_openai_key original) "OPENAI_API_KEY" = true /\
  mentions (msg_openai_key original) "embed_model='local'" = true.
Proof.
  intros Ht H1 H2 Hk. split; [|split; [reflexivity|]].
  - rewrite (run_resolve_default_hosted _ _ _ Ht). mrun.
    rewrite run_resolve_default, H1, H2. cbn zeta. rewrite Hk. reflexivity.
  - unfold msg_openai_key. split; [|split].
    + do 8 apply mentions_append_r. apply mentions_self.
    + do 4 apply mentions_append_r. apply mentions_append_l. vm_compute. reflexivity.
    + do 10 apply mentions_append_r. apply mentions_append_l. vm_compute. reflexivity.
Qed.

Lemma default_reports_a_rejected_key_witness :
  fst (resolve_embed_model
         (World ∅ (fun _ => true) (VRef 0) "/cache" VNone
                (fun _ => Some "No API key found for OpenAI.")
                (fun _ _ _ _ _ => Return []))
         (VStr "default") VNone st0) =
  Raise (Exc ValueError (msg_openai_key "No API key found for OpenAI.")).
Proof.
  exact (proj1 (default_reports_a_rejected_key
                  (World ∅ (fun _ => true) (VRef 0) "/cache" VNone
                         (fun _ => Some "No API key found for OpenAI.")
                         (fun _ _ _ _ _ => Return []))
                  VNone st0 "No API key found for OpenAI."
                  eq_refl eq_refl eq_refl eq_refl)).
Defined.

(** ** Objects that are not providers *)

(** X7.  An instance of the langchain interface, where the bridge and
    the langchain package are installed, is wrapped: the result is a new
    [LangchainEmbedding] that holds the reference it was given and is
    bound to the handle; the wrapped object itself is not modified. *)
Theorem langchain_instance_is_wrapped w l o cm st :
  heap st !! l = Some o ->
  is_LCEmbeddings (obj_class o) = true ->
  importable w mod_bridge_langchain = true ->
  importable w mod_embeddings_langchain = true ->
  resolve_embed_model w (VRef l) cm st =
  (Return (VRef (length (heap st))),
   {| heap := heap st ++
              [Object cls_LangchainEmbedding
                 (<[ "callback_manager" := bound_handle w cm ]>
                    {[ "_langchain_embeddings" := VRef l ]})];
      stdout := stdout st;
      dirs := dirs st;
      trace := trace st ++ [EImport mod_bridge_langchain;
                            EImport mod_embeddings_langchain] |}).
Proof.
  intros Hl Hc Hb Hi.
  rewrite resolve_embed_model_rest by (reflexivity || discriminate).
  rewrite Hb. unfold resolve_rest, resolve_str. mrun.
  unfold resolve_langchain. mrun.
  rewrite (run_isinstance_LCEmbeddings_ref l o) by exact Hl. rewrite Hc. cbn [andb]. mrun.
  unfold try_except. mrun. rewrite (run_import_ok _ _ _ Hi). mrun.
  unfold LangchainEmbedding, new_object. mrun.
  unfold resolve_azure, resolve_none. mrun.
  rewrite run_setattr_new by reflexivity. mrun. unfold traced. mrun.
  rewrite <- app_assoc. reflexivity.
Qed.

Lemma langchain_instance_is_wrapped_witness :
  fst (resolve_embed_model w_all (VRef 3) VNone st_objs) = Return (VRef 4) /\
  heap (snd (resolve_embed_model w_all (VRef 3) VNone st_objs)) !! 4 =
  Some (Object cls_LangchainEmbedding
          (<[ "callback_manager" := VRef 0 ]> {[ "_langchain_embeddings" := VRef 3 ]})) /\
  heap (snd (resolve_embed_model w_all (VRef 3) VNone st_objs)) !! 3 =
  Some (Object cls_LCEmbeddingsImpl ∅).
Proof.
  rewrite (langchain_instance_is_wrapped w_all 3 (Object cls_LCEmbeddingsImpl ∅) VNone
             st_objs eq_refl eq_refl eq_refl eq_refl).
  repeat split; reflexivity.
Defined.

(** X8.  The resolver does not check that an object is a provider.  An
    object that is not wrapped (an instance of an unrelated class, or of
    the langchain interface where the bridge cannot be imported) reaches
    the assignment of line 160.  If it takes the attribute, it is
    returned as it is, with its [callback_manager] set to the handle; if
    it refuses the attribute, the error of the assignment is raised and
    the heap is as it was. *)
Theorem any_unwrapped_object_reaches_the_assignment w l o cm st :
  heap st !! l = Some o ->
  importable w mod_bridge_langchain && is_LCEmbeddings (obj_class o) = false ->
  (attribute_refusal (obj_class o) = None ->
   resolve_embed_model w (VRef l) cm st =
   (Return (VRef l),
    {| heap := <[ l := Object (obj_class o)
                          (<[ "callback_manager" := bound_handle w cm ]> (obj_attrs o)) ]>
                 (heap st);
       stdout := stdout st;
       dirs := dirs st;
       trace := trace st ++ [EImport mod_bridge_langchain] |})) /\
  (forall k, attribute_refusal (obj_class o) = Some k ->
   exists e,
     resolve_embed_model w (VRef l) cm st =
     (Raise e, traced st [EImport mod_bridge_langchain]) /\
     exc_kind e = k).
Proof.
  intros Hl Hc. split.
  - intros Ha.
    rewrite resolve_embed_model_rest by (reflexivity || discriminate).
    rewrite (run_resolve_rest_ref w _ l o) by assumption.
    reflexivity.
  - intros k Hk.
    rewrite resolve_embed_model_rest by (reflexivity || discriminate).
    unfold resolve_rest, resolve_str, resolve_langchain. mrun.
    rewrite (run_isinstance_LCEmbeddings_ref l o) by exact Hl. rewrite Hc. mrun.
    unfold resolve_azure, resolve_none. mrun.
    unfold setattr. cbn [heap traced]. rewrite Hl. rewrite Hk.
    eexists. split; reflexivity.
Qed.

(** Where nothing is installed: a langchain embeddings object of an
    ordinary class comes back unwrapped with the handle set; one that is
    a pydantic model makes the assignment fail. *)
Lemma any_unwrapped_object_witness :
  fst (resolve_embed_model w_none (VRef 3) (VRef 1) st_objs) = Return (VRef 3) /\
  heap (snd (resolve_embed_model w_none (VRef 3) (VRef 1) st_objs)) !! 3 =
  Some (Object cls_LCEmbeddingsImpl {[ "callback_manager" := VRef 1 ]}) /\
  exists e,
    fst (resolve_embed_model w_none (VRef 1) VNone st_model) = Raise e /\
    exc_kind e = ValueError.
Proof.
  destruct (any_unwrapped_object_reaches_the_assignment w_none 3
              (Object cls_LCEmbeddingsImpl ∅) (VRef 1) st_objs eq_refl eq_refl)
    as [Hok _].
  destruct (any_unwrapped_object_reaches_the_assignment w_none 1
              (Object cls_LCEmbeddingsModel ∅) VNone st_model eq_refl eq_refl)
    as [_ Hrefuse].
  destruct (Hrefuse ValueError eq_refl) as (e & Hrun & Hk).
  rewrite (Hok eq_refl), Hrun. split; [reflexivity|]. split; [reflexivity|].
  exists e. split; [reflexivity|exact Hk].
Defined.

(** X9.  A value that is neither [None], nor a string, nor an object (a
    number, a list) is not refused as a specifier: it runs through every
    check and fails at line 160 with the [AttributeError] of the
    assignment, leaving heap, output and directories as they were. *)
Theorem non_object_specifier_fails_at_the_assignment w v cm st :
  v <> VNone ->
  is_str v = false ->
  (forall l, v <> VRef l) ->
  resolve_embed_model w v cm st =
  (Raise (Exc AttributeError
            ("'" +:+ type_name v +:+ "' object has no attribute 'callback_manager'")),
   traced st [EImport mod_bridge_langchain]).
Proof.
  intros Hn Hs Hr.
  rewrite resolve_embed_model_rest;
    [|destruct v; (reflexivity || discriminate)|intros s ->; discriminate].
  destruct v as [|s|n|fl|l]; [congruence|discriminate| | |destruct (Hr l eq_refl)].
  - unfold resolve_rest, resolve_str, resolve_langchain. mrun.
    unfold isinstance_LCEmbeddings. mrun. rewrite andb_false_r. mrun. reflexivity.
  - unfold resolve_rest, resolve_str, resolve_langchain. mrun.
    unfold isinstance_LCEmbeddings. mrun. rewrite andb_false_r. mrun. reflexivity.
Qed.

Lemma non_object_specifier_witness :
  fst (resolve_embed_model w_all (VFloats []) VNone st0) =
  Raise (Exc AttributeError "'list' object has no attribute 'callback_manager'").
Proof.
  rewrite (non_object_specifier_fails_at_the_assignment w_all (VFloats []) VNone st0);
    [reflexivity|discriminate|reflexivity|discriminate].
Defined.

(** X10.  ["local"] is recognised only as the whole text before the
    first colon.  A string that is not ["default"], does not start with
    ["clip"] and whose first field is anything else (["localhost:1"],
    ["local-model"], ["Local"], ["default:x"]) is refused: by the
    [ValueError] of line 113 when the huggingface package is installed,
    by the [ImportError] of line 124 when it is not; no directory is
    made and no object is allocated. *)
Theorem only_the_exact_local_prefix_is_accepted w s f rest cm st :
  String.eqb s "default" = false ->
  PyStr.startswith "clip" s = false ->
  PyStr.split1 ":" s = f :: rest ->
  String.eqb f "local" = false ->
  resolve_embed_model w (VStr s) cm st =
  (if importable w mod_embeddings_huggingface
   then Raise (Exc ValueError msg_not_local)
   else Raise (Exc ImportError msg_huggingface_missing),
   traced st [EImport mod_bridge_langchain; EImport mod_embeddings_huggingface]).
Proof.
  intros Hd Hc Hs Hf. apply run_resolve_other_string; [exact Hd|exact Hc|].
  intros f' rest' Hs'. rewrite Hs in Hs'. injection Hs' as <- _. exact Hf.
Qed.

Lemma only_the_exact_local_prefix_witness :
  PyStr.startswith "local" "localhost:8080" = true /\
  fst (resolve_embed_model w_all (VStr "localhost:8080") VNone st0) =
  Raise (Exc ValueError msg_not_local).
Proof.
  rewrite (only_the_exact_local_prefix_is_accepted w_all "localhost:8080" "localhost"
             ["8080"] VNone st0 eq_refl eq_refl eq_refl eq_refl).
  split; reflexivity.
Defined.

(** ** [get_azure_openai_embedding] on its own *)

(** [get_azure_openai_embedding], run: the import first, then one client
    with the placeholder engine, then the request. *)
Lemma run_get_azure_openai_embedding w text api_key endpoint model_name api_version st :
  get_azure_openai_embedding w text api_key endpoint model_name api_version st =
  if importable w mod_legacy_azure_openai
  then
    (azure_embed w text api_key endpoint model_name api_version,
     {| heap := heap st ++
                [Object cls_AzureOpenAIMultiModal
                   (<[ "model" := VStr model_name ]>
                    (<[ "engine" := VStr "your_deployment_name" ]>
                     (<[ "azure_endpoint" := VStr endpoint ]>
                      (<[ "api_key" := api_key ]>
                         {[ "api_version" := VStr api_version ]}))))];
        stdout := stdout st;
        dirs := dirs st;
        trace := trace st ++ [EImport mod_legacy_azure_openai; EAzureEmbed text] |})
  else
    (Raise (Exc ImportError
              "No module named 'llama_index.legacy.multi_modal_llms.azure_openai'"),
     traced st [EImport mod_legacy_azure_openai]).
Proof.
  unfold get_azure_openai_embedding. mrun.
  destruct (importable w mod_legacy_azure_openai) eqn:Hi.
  - rewrite (run_import_ok _ _ _ Hi). mrun.
    unfold AzureOpenAIMultiModal, new_object. mrun.
    unfold embed_and_extract. mrun. rewrite <- app_assoc. reflexivity.
  - rewrite (run_import_missing _ _ _ Hi). reflexivity.
Qed.

(** ** Edge cases of saving and loading *)

(** X12.  A file without any text has no first line: [load_embedding]
    fails with [UnboundLocalError] at its [return].  Saving the empty
    list writes such a file, so the empty list does not load back. *)
Theorem load_embedding_of_an_empty_file
    (py_str : spec_float -> string) (py_float : string -> outcome spec_float)
    (p : string) (fs : file_store) :
  load_embedding py_float p (<[ p := EmptyString ]> fs) =
    Raise (Exc UnboundLocalError
             "cannot access local variable 'embedding' where it is not associated with a value") /\
  snd (save_embedding py_str [] p fs) !! p = Some EmptyString /\
  load_embedding py_float p (snd (save_embedding py_str [] p fs)) =
    Raise (Exc UnboundLocalError
             "cannot access local variable 'embedding' where it is not associated with a value").
Proof.
  unfold load_embedding, save_embedding. cbn [snd map PyStr.join].
  rewrite !lookup_insert_eq. repeat split.
Qed.

(** X13.  Saving to a path replaces what was saved there before: after
    two saves the file is as if only the second had happened, and
    loading gives the second list. *)
Theorem save_embedding_overwrites
    (py_str : spec_float -> string) (py_float : string -> outcome spec_float)
    (e1 e2 : list spec_float) (p : string) (fs : file_store) :
  e2 <> [] ->
  (forall x, In x e2 -> repr_contract py_str py_float x) ->
  let fs2 := snd (save_embedding py_str e2 p (snd (save_embedding py_str e1 p fs))) in
  fs2 = snd (save_embedding py_str e2 p fs) /\
  load_embedding py_float p fs2 = Return e2.
Proof.
  intros Hne Hc fs2. unfold fs2, save_embedding. cbn [snd]. split.
  - apply insert_insert_eq.
  - unfold load_embedding. rewrite lookup_insert_eq. apply load_text_join; assumption.
Qed.

Lemma save_embedding_overwrites_witness :
  load_embedding sample_float "e.txt"
    (snd (save_embedding sample_str [f_neg_2] "e.txt"
            (snd (save_embedding sample_str [f_1_5; f_1_5] "e.txt" ∅)))) =
  Return [f_neg_2].
Proof.
  assert (Hc : forall x, In x [f_neg_2] -> repr_contract sample_str sample_float x).
  { intros x [<-|[]]. split; [discriminate|split; reflexivity]. }
  exact (proj2 (save_embedding_overwrites sample_str sample_float [f_1_5; f_1_5] [f_neg_2]
                  "e.txt" ∅ ltac:(discriminate) Hc)).
Defined.

Lemma map_outcome_first_failure {A B} (f : A -> outcome B) before bad after values err :
  map_outcome f before = Return values ->
  f bad = Raise err ->
  map_outcome f (before ++ bad :: after) = Raise err.
Proof.
  revert values. induction before as [|x before IH]; intros values Hb Hbad.
  - cbn [app map_outcome]. rewrite Hbad. reflexivity.
  - cbn [app map_outcome] in *. destruct (f x) as [y|e]; [|discriminate].
    destruct (map_outcome f before) as [ys|e] eqn:E; [|discriminate].
    rewrite (IH ys eq_refl Hbad). reflexivity.
Qed.

(** X14.  The fields of the first line are converted from left to
    right, and the first one that [float] refuses decides the outcome:
    its error is raised, whatever the later fields and lines hold. *)
Theorem load_embedding_raises_the_first_bad_field
    (py_float : string -> outcome spec_float)
    (p first rest : string) (fs : file_store) before bad after values err :
  all_chars not_newline first = true ->
  PyStr.split "," (PyStr.strip first) = before ++ bad :: after ->
  map_outcome py_float before = Return values ->
  py_float bad = Raise err ->
  load_embedding py_float p (<[ p := first +:+ nl +:+ rest ]> fs) = Raise err.
Proof.
  intros Hf Hsplit Hb Hbad. unfold load_embedding. rewrite lookup_insert_eq.
  rewrite (load_text_first_line _ _ _ Hf), Hsplit.
  eapply map_outcome_first_failure; eassumption.
Qed.

Lemma load_embedding_raises_the_first_bad_field_witness :
  load_embedding sample_float "e.txt"
    {[ "e.txt" := "1.5,abc,-2.0,xyz" +:+ nl +:+ "1.5" ]} =
  Raise (Exc ValueError "could not convert string to float: 'abc'").
Proof.
  rewrite <- (insert_empty (M := gmap string)).
  exact (load_embedding_raises_the_first_bad_field sample_float "e.txt"
           "1.5,abc,-2.0,xyz" "1.5" ∅ ["1.5"] "abc" ["-2.0"; "xyz"] [f_1_5]
           (Exc ValueError "could not convert string to float: 'abc'")
           eq_refl eq_refl eq_refl eq_refl).
Defined.

Lemma lstrip_all_space s :
  all_chars PyStr.is_space s = true -> PyStr.lstrip s = EmptyString.
Proof.
  induction s as [|a s IH]; cbn [all_chars PyStr.lstrip]; [reflexivity|].
  intros [-> Hs]%andb_true_iff. exact (IH Hs).
Qed.

(** X15.  A first line that holds nothing but spaces is not skipped:
    the loader does not go on to the second line, it hands the empty
    text to [float] and returns, or raises, what [float] makes of it. *)
Theorem load_embedding_of_a_blank_first_line
    (py_float : string -> outcome spec_float) (p first rest : string) (fs : file_store) :
  all_chars PyStr.is_space first = true ->
  all_chars not_newline first = true ->
  load_embedding py_float p (<[ p := first +:+ nl +:+ rest ]> fs) =
  match py_float EmptyString with
  | Return x => Return [x]
  | Raise e => Raise e
  end.
Proof.
  intros Hs Hn. unfold load_embedding. rewrite lookup_insert_eq.
  rewrite (load_text_first_line _ _ _ Hn). unfold PyStr.strip.
  rewrite (lstrip_all_space _ Hs). cbn [PyStr.rstrip PyStr.split map_outcome].
  destruct (py_float EmptyString); reflexivity.
Qed.

Lemma load_embedding_of_a_blank_first_line_witness :
  load_embedding sample_float "e.txt" {[ "e.txt" := "  " +:+ nl +:+ "1.5" ]} =
  Raise (Exc ValueError "could not convert string to float: ''").
Proof.
  rewrite <- (insert_empty (M := gmap string)).
  exact (load_embedding_of_a_blank_first_line sample_float "e.txt" "  " "1.5" ∅
           eq_refl eq_refl).
Defined.

Lemma universal_newlines_after_plain first s :
  all_chars not_newline first = true ->
  universal_newlines (first +:+ s) = first +:+ universal_newlines s.
Proof.
  induction first as [|a t IH]; rewrite ?append_nil_l, ?append_cons_l; [reflexivity|].
  cbn [all_chars]. intros [Ha Ht]%andb_true_iff.
  unfold not_newline in Ha. apply andb_true_iff in Ha as [_ Hcr].
  apply negb_true_iff in Hcr.
  cbn [universal_newlines]. rewrite Hcr, (IH Ht). reflexivity.
Qed.

Lemma universal_newlines_cr rest :
  exists t, universal_newlines (String (ascii_of_nat 13) rest) = nl +:+ t.
Proof.
  destruct rest as [|b rest]; cbn [universal_newlines].
  - exists EmptyString. reflexivity.
  - rewrite Ascii.eqb_refl. destruct (Ascii.eqb b (ascii_of_nat 10)); eexists; reflexivity.
Qed.

(** X16.  The first line is read the same whether it ends with a line
    feed, a carriage return, both, or the end of the file. *)
Theorem load_embedding_line_endings
    (py_float : string -> outcome spec_float) (first rest : string) :
  all_chars not_newline first = true ->
  first <> EmptyString ->
  let fields := map_outcome py_float (PyStr.split "," (PyStr.strip first)) in
  load_text py_float first = fields /\
  load_text py_float (first +:+ nl +:+ rest) = fields /\
  load_text py_float (first +:+ String (ascii_of_nat 13) rest) = fields /\
  load_text py_float (first +:+ String (ascii_of_nat 13) (nl +:+ rest)) = fields.
Proof.
  intros Hf Hne fields.
  assert (Hcr : forall s, load_text py_float (first +:+ String (ascii_of_nat 13) s) = fields).
  { intros s. unfold load_text. rewrite (universal_newlines_after_plain _ _ Hf).
    destruct (universal_newlines_cr s) as (t & ->). unfold first_line.
    destruct (first +:+ nl +:+ t) eqn:E; [destruct first; discriminate|].
    rewrite <- E, (readline_aux_first_line _ _ Hf), strip_newline. reflexivity. }
  split; [|split; [apply load_text_first_line, Hf|split; apply Hcr]].
  unfold load_text. rewrite (universal_newlines_plain _ Hf). unfold first_line.
  destruct first as [|a t] eqn:E; [congruence|].
  rewrite (readline_aux_plain _ Hf). reflexivity.
Qed.

Lemma load_embedding_line_endings_witness :
  load_text sample_float ("1.5,-2.0" +:+ String (ascii_of_nat 13) (nl +:+ "1.5")) =
  Return [f_1_5; f_neg_2].
Proof.
  destruct (load_embedding_line_endings sample_float "1.5,-2.0" "1.5" eq_refl
              ltac:(discriminate)) as (_ & _ & _ & Hcrlf).
  rewrite Hcrlf. reflexivity.
Defined.

(** ** No provider is reused *)

Lemma resolve_str_Return_fresh w em st v st1 :
  resolve_str w em st = (Return v, st1) ->
  v = em \/ v = VRef (length (heap st)).
Proof.
  destruct em as [|s| | |]; try (intros [= <- _]; left; reflexivity).
  intros H. right.
  destruct (importable w mod_embeddings_huggingface) eqn:Hi.
  - destruct (split1_cons ":" s) as (f & rest & Hs).
    destruct (String.eqb f "local") eqn:Hf.
    + apply String.eqb_eq in Hf as ->.
      rewrite (run_resolve_str_local w s rest st Hi Hs) in H. injection H as <- _.
      reflexivity.
    + rewrite (run_resolve_str_not_local w s f rest st Hi Hs Hf) in H. discriminate.
  - rewrite (run_resolve_str_missing w s st Hi) in H. discriminate.
Qed.

Lemma resolve_langchain_Return_fresh w lc em st v st1 :
  resolve_langchain w lc em st = (Return v, st1) ->
  v = em \/ v = VRef (length (heap st)).
Proof.
  unfold resolve_langchain. mrun.
  destruct (isinstance_LCEmbeddings em st) as [[b|e] st0] eqn:E.
  - assert (st0 = st) as -> by (unfold isinstance_LCEmbeddings in E; congruence).
    mrun. destruct (lc && b); [|intros [= <- _]; left; reflexivity].
    unfold try_except. mrun.
    destruct (importable w mod_embeddings_langchain) eqn:Hi.
    + rewrite (run_import_ok _ _ _ Hi). mrun.
      unfold LangchainEmbedding, new_object. mrun. intros [= <- _]. right. reflexivity.
    + rewrite (run_import_missing _ _ _ Hi). mrun. discriminate.
  - unfold isinstance_LCEmbeddings in E. discriminate.
Qed.

Lemma resolve_none_Return_fresh em st v st1 :
  resolve_none em st = (Return v, st1) ->
  v = em \/ v = VRef (length (heap st)).
Proof.
  destruct em; try (intros [= <- _]; left; reflexivity).
  unfold resolve_none, print. mrun. rewrite run_MockEmbedding. mrun.
  intros [= <- _]. right. reflexivity.
Qed.

Lemma monotone_length {A} p w (m : M A) st r st1 :
  monotone p w m -> m st = (r, st1) -> length (heap st) <= length (heap st1).
Proof.
  intros Hm E. specialize (Hm st). rewrite E in Hm. eapply grows_length, Hm.
Qed.

Lemma resolve_rest_Return_fresh w lc em cm st v st' :
  resolve_rest w lc em cm st = (Return v, st') ->
  v = em \/ exists l, v = VRef l /\ length (heap st) <= l.
Proof.
  rewrite azure_branch_is_dead. unfold resolve_rest_without_azure. intros H.
  apply bind_Return_inv in H as (v1 & st1 & H1 & H).
  apply bind_Return_inv in H as (v2 & st2 & H2 & H).
  apply bind_Return_inv in H as (v3 & st3 & H3 & H).
  apply bind_handle_Return_inv in H as (l & o & -> & -> & _).
  pose proof (monotone_length (Perms true true) w _ _ _ _
                (monotone_resolve_str (Perms true true) w em (fun _ => eq_refl)) H1) as L1.
  pose proof (monotone_length (Perms true true) w _ _ _ _
                (monotone_resolve_langchain (Perms true true) w lc v1) H2) as L2.
  destruct (resolve_none_Return_fresh _ _ _ _ H3) as [->|[= ->]];
    [|right; eexists; split; [reflexivity|lia]].
  destruct (resolve_langchain_Return_fresh _ _ _ _ _ _ H2) as [->|[= ->]];
    [|right; eexists; split; [reflexivity|lia]].
  destruct (resolve_str_Return_fresh _ _ _ _ _ H1) as [->|[= ->]];
    [left; reflexivity|right; eexists; split; [reflexivity|lia]].
Qed.

(** X17.  Nothing is cached or shared: the value a call returns is
    either the specifier itself (an object that was passed in) or an
    object that did not exist before the call. *)
Theorem resolve_returns_the_specifier_or_a_new_object w embed_model cm st v st' :
  resolve_embed_model w embed_model cm st = (Return v, st') ->
  v = embed_model \/ exists l, v = VRef l /\ length (heap st) <= l /\ heap st !! l = None.
Proof.
  assert (Hnew : forall v, (exists l, v = VRef l /\ length (heap st) <= l) ->
            exists l, v = VRef l /\ length (heap st) <= l /\ heap st !! l = None).
  { intros v0 (l & -> & Hl). exists l. repeat split; [exact Hl|].
    apply lookup_ge_None. exact Hl. }
  destruct (eq_str embed_model "default") eqn:Hd.
  - destruct embed_model as [|s| | |]; try discriminate.
    apply String.eqb_eq in Hd as ->.
    destruct (truthy (getenv_value w "IS_TESTING")) eqn:Ht.
    + rewrite (run_resolve_default_testing w cm st Ht). intros [= <- _].
      right. apply Hnew. eauto.
    + rewrite (run_resolve_default_hosted _ _ _ Ht). mrun. rewrite run_resolve_default.
      destruct (importable w mod_embeddings_openai); [|discriminate].
      destruct (importable w mod_embeddings_openai_utils); [|discriminate].
      cbn zeta. destruct (openai_key_rejection w (openai_api_key w)); [discriminate|].
      unfold traced. mrun. intros Hr. right. apply Hnew.
      apply resolve_rest_Return_fresh in Hr as [->|(l & -> & Hl)].
      * eauto.
      * cbn [heap] in Hl. rewrite length_app in Hl. exists l. split; [reflexivity|lia].
  - destruct (match embed_model with VStr s => PyStr.startswith "clip" s | _ => false end)
      eqn:Hc.
    + destruct embed_model as [|s| | |]; try discriminate.
      rewrite (resolve_embed_model_clip _ _ _ _ Hc). mrun.
      destruct (importable w mod_embeddings_clip) eqn:Hi.
      * destruct (clip_model_name_total s) as (m & Hm).
        rewrite (run_resolve_clip_ok w s _ m Hi Hm). unfold traced. mrun. intros Hr.
        right. apply Hnew.
        apply resolve_rest_Return_fresh in Hr as [->|(l & -> & Hl)].
        -- eauto.
        -- cbn [heap] in Hl. rewrite length_app in Hl. exists l. split; [reflexivity|lia].
      * rewrite (run_resolve_clip_missing _ _ _ Hi). discriminate.
    + rewrite resolve_embed_model_rest; [|exact Hd|intros s ->; exact Hc].
      intros Hr. apply resolve_rest_Return_fresh in Hr as [->|Hf]; [left; reflexivity|].
      right. apply Hnew. exact Hf.
Qed.

(** Resolving ["local"] twice gives two distinct providers. *)
Lemma resolve_returns_a_new_object_witness :
  exists st1 st2,
    resolve_embed_model w_all (VStr "local") VNone st0 = (Return (VRef 0), st1) /\
    resolve_embed_model w_all (VStr "local") VNone st1 = (Return (VRef 1), st2) /\
    heap st1 !! 1 = None.
Proof.
  eexists. eexists. split; [reflexivity|]. split; [reflexivity|].
  destruct (resolve_returns_the_specifier_or_a_new_object w_all (VStr "local") VNone
              (snd (resolve_embed_model w_all (VStr "local") VNone st0))
              (VRef 1) _ eq_refl) as [[=]|(l & [= <-] & _ & Hfresh)].
  exact Hfresh.
Defined.
